(** * MicroCloud charm: a shallow embedding of [src/charm.py]

    The charm is a set of event handlers run one at a time by the Juju
    agent.  Each handler reads the unit's environment (leadership, planned
    unit count, configuration, the outcome of external commands), mutates the
    unit's state (status, own peer data bag, stored configuration snapshot)
    and may defer its event.

    The embedding follows the Python text method by method:
    - Python values that can sit in a data bag or in the configuration are
      [pyval]; dictionaries are [gmap string _];
    - [subprocess.run] is [subprocess_run]: the environment gives, for each
      argv, how the process behaves, and [check] / [timeout] decide which
      exception is raised;
    - handlers live in a state-and-exception monad [M] over [World]; a
      [try ... except] is [try_except];
    - logging calls are dropped: they do not influence control flow or state. *)

From Stdlib Require Import ZArith String List Bool.
From stdpp Require Import base option gmap strings list fin_maps.

Open Scope string_scope.
Open Scope Z_scope.
Open Scope list_scope.

#[local] Set Warnings "-register-all,-clear-no-such-hyp".

(** ** Python values *)

Inductive pyval :=
| PStr (s : string)
| PInt (n : Z)
| PBool (b : bool)
| PNone.

#[global] Instance pyval_eq_dec : EqDecision pyval.
Proof. solve_decision. Defined.

(** Truthiness, as [if v:] tests it. *)
Definition truthy (v : pyval) : bool :=
  match v with
  | PStr s => negb (String.eqb s "")
  | PInt n => negb (n =? 0)
  | PBool b => b
  | PNone => false
  end.

(** [a == b] on the values above ([bool] is a subclass of [int]). *)
Definition py_eq (a b : pyval) : bool :=
  match a, b with
  | PStr x, PStr y => String.eqb x y
  | PInt x, PInt y => x =? y
  | PBool x, PBool y => Bool.eqb x y
  | PInt x, PBool y | PBool y, PInt x => x =? (if y then 1 else 0)
  | PNone, PNone => true
  | _, _ => false
  end.

(** ** JSON documents, as [json.loads] returns them *)

Inductive json :=
| JNull
| JBool (b : bool)
| JNum (n : Z)
| JStr (s : string)
| JArr (l : list json)
| JObj (kvs : list (string * json)).

(** ** External processes *)

(** How a child process behaves once started: it exits after [duration]
    seconds with a return code and its two output streams; or it cannot be
    started at all (missing binary). *)
Inductive proc_behaviour :=
| Exited (returncode : Z) (stdout stderr : string) (duration : Z)
| SpawnFailed.

Record CompletedProcess := mkCompleted {
  cp_returncode : Z;
  cp_stdout : option string;
  cp_stderr : option string
}.

(** ** Exceptions *)

Inductive exn :=
| CalledProcessError (cmd : list string) (returncode : Z) (stderr : option string)
| TimeoutExpired (cmd : list string)
| FileNotFoundError (file : list string)
| RuntimeError
| SnapError (msg : string)
| KeyError (key : string)
| TypeError
| AttributeError
| JSONDecodeError
| RelationDataError.

Inductive result (A : Type) :=
| Ok (a : A)
| Raise (e : exn).
Arguments Ok {A} a.
Arguments Raise {A} e.

(** ** Unit status *)

(** The f-strings of the charm, kept as structured messages. *)
Inductive message :=
| Lit (s : string)
| FailedToRun (cmd : list string) (stderr : option string) (returncode : Z)
| TimeoutExceeded (cmd : list string)
| FailedToRemove (node : string) (e : exn)
| FailedToApply (keys : list string)
| FailedToRefresh (msg : string)
| FailedToSideload (msg : string).

Inductive status :=
| ActiveStatus
| BlockedStatus (m : message)
| MaintenanceStatus (m : message)
| WaitingStatus (m : message).

(** ** The peer relation *)

(** [self.peers.data] maps the unit itself and each remote unit of the
    relation to its data bag; [self.peers.units] is the set of remote units. *)
Record Relation := mkRelation {
  own_data : gmap string pyval;
  peer_data : gmap string (gmap string pyval)
}.

Definition units (r : Relation) : list string := (map_to_list (peer_data r)).*1.

(** ** Side effects other than commands *)

Inductive effect :=
| SnapEnsure (name : string) (channel : pyval) (cohort : option string)
| SnapInstallLocal (path : string)
| SnapRestart (name : string)
| TarExtract (archive member dir : string)
| OsRemove (path : string)
| OsRmdir (path : string)
| CopyFile (src dst : string)
| Chmod (path : string) (mode : Z).

(** ** The world a handler runs in *)

(** What a handler can change. [issued] lists the argv of every
    [subprocess.run] call, oldest first. *)
Record World := mkWorld {
  unit_status : status;
  peers : option Relation;
  stored_config : gmap string pyval;
  microcloud_binary_path : string;
  microcloud_snap_path : string;
  issued : list (list string);
  effects : list effect;
  deferred : bool;
  slept : Z
}.

(** What a handler can only read during one evaluation. *)
Record Env := mkEnv {
  unit_name : string;
  is_leader : bool;
  planned_units : Z;
  config : gmap string pyval;
  nodename : string;
  machine : string;
  proc : list string → proc_behaviour;
  json_loads : string → option json;
  snap_present : string → bool;
  snap_ensure : string → pyval → option string;
  snap_install_local : string → option string;
  snap_restart : string → option string;
  resource_fetch : string → option string;
  is_tarfile : string → bool;
  tar_getnames : string → list string;
  set_order : list string → nat;
  mkdtemp : string;
  getsize : string → option Z;
  path_exists : string → bool
}.

Definition with_status (st : status) (w : World) : World :=
  mkWorld st (peers w) (stored_config w) (microcloud_binary_path w)
    (microcloud_snap_path w) (issued w) (effects w) (deferred w) (slept w).

Definition with_peers (p : option Relation) (w : World) : World :=
  mkWorld (unit_status w) p (stored_config w) (microcloud_binary_path w)
    (microcloud_snap_path w) (issued w) (effects w) (deferred w) (slept w).

Definition with_stored_config (c : gmap string pyval) (w : World) : World :=
  mkWorld (unit_status w) (peers w) c (microcloud_binary_path w)
    (microcloud_snap_path w) (issued w) (effects w) (deferred w) (slept w).

Definition with_binary_path (p : string) (w : World) : World :=
  mkWorld (unit_status w) (peers w) (stored_config w) p
    (microcloud_snap_path w) (issued w) (effects w) (deferred w) (slept w).

Definition with_snap_path (p : string) (w : World) : World :=
  mkWorld (unit_status w) (peers w) (stored_config w) (microcloud_binary_path w)
    p (issued w) (effects w) (deferred w) (slept w).

Definition with_issued (l : list (list string)) (w : World) : World :=
  mkWorld (unit_status w) (peers w) (stored_config w) (microcloud_binary_path w)
    (microcloud_snap_path w) l (effects w) (deferred w) (slept w).

Definition with_effects (l : list effect) (w : World) : World :=
  mkWorld (unit_status w) (peers w) (stored_config w) (microcloud_binary_path w)
    (microcloud_snap_path w) (issued w) l (deferred w) (slept w).

Definition with_deferred (b : bool) (w : World) : World :=
  mkWorld (unit_status w) (peers w) (stored_config w) (microcloud_binary_path w)
    (microcloud_snap_path w) (issued w) (effects w) b (slept w).

Definition with_slept (n : Z) (w : World) : World :=
  mkWorld (unit_status w) (peers w) (stored_config w) (microcloud_binary_path w)
    (microcloud_snap_path w) (issued w) (effects w) (deferred w) n.

(** ** The handler monad *)

Definition M (A : Type) : Type := World → result A * World.

Definition ret {A} (a : A) : M A := fun w => (Ok a, w).

Definition raise {A} (e : exn) : M A := fun w => (Raise e, w).

Definition bind {A B} (m : M A) (k : A → M B) : M B :=
  fun w =>
    match m w with
    | (Ok a, w') => k a w'
    | (Raise e, w') => (Raise e, w')
    end.

(** [try: m except ...: h]: [h e] is [None] when no clause matches [e]. *)
Definition try_except {A} (m : M A) (h : exn → option (M A)) : M A :=
  fun w =>
    match m w with
    | (Ok a, w') => (Ok a, w')
    | (Raise e, w') =>
        match h e with
        | Some k => k w'
        | None => (Raise e, w')
        end
    end.

Definition get {A} (f : World → A) : M A := fun w => (Ok (f w), w).

Definition modify (f : World → World) : M unit := fun w => (Ok tt, f w).

Definition lift {A} (r : result A) : M A := fun w => (r, w).

Declare Scope charm_scope.
Delimit Scope charm_scope with charm.
Notation "'do' x <- m ; k" := (bind m (fun x => k))
  (at level 10, x name, m at level 100, k at level 200) : charm_scope.
Notation "m >> k" := (bind m (fun _ => k))
  (at level 100, k at level 200, right associativity) : charm_scope.
Open Scope charm_scope.

Definition when (b : bool) (m : M unit) : M unit := if b then m else ret tt.

(** ** [subprocess.run] *)

(** [subprocess.run(argv, capture_output=capture, check=check,
    timeout=timeout)].  The call is recorded in [issued]; a process that
    cannot be started raises whatever the keywords are; the timeout is
    looked at before the return code. *)
Definition subprocess_run (env : Env) (argv : list string)
    (capture check : bool) (timeout : option Z) : M CompletedProcess :=
  modify (fun w => with_issued (issued w ++ [argv]) w) >>
  match proc env argv with
  | SpawnFailed => raise (FileNotFoundError argv)
  | Exited rc out err d =>
      let captured (s : string) := if capture then Some s else None in
      match timeout with
      | Some t => if t <? d then raise (TimeoutExpired argv) else
          if check && negb (rc =? 0)
          then raise (CalledProcessError argv rc (captured err))
          else ret (mkCompleted rc (captured out) (captured err))
      | None =>
          if check && negb (rc =? 0)
          then raise (CalledProcessError argv rc (captured err))
          else ret (mkCompleted rc (captured out) (captured err))
      end
  end.

(** ** Status helpers *)

Definition unit_active : M unit := modify (with_status ActiveStatus).
Definition unit_blocked (msg : message) : M unit := modify (with_status (BlockedStatus msg)).
Definition unit_maintenance (msg : message) : M unit := modify (with_status (MaintenanceStatus msg)).
Definition unit_waiting (msg : message) : M unit := modify (with_status (WaitingStatus msg)).

Definition event_defer : M unit := modify (with_deferred true).

Definition time_sleep (n : Z) : M unit := modify (fun w => with_slept (slept w + n) w).

Definition record_effect (e : effect) : M unit :=
  modify (fun w => with_effects (effects w ++ [e]) w).

(** * The charm *)

Section Charm.

Variable env : Env.

(** ** Peer data accessors *)

(** [self.peers.data[bag]]: a mapping subscript, [KeyError] on an entity
    that is not part of the relation. *)
Definition data_getitem (r : Relation) (bag : string) : result (gmap string pyval) :=
  if decide (bag = unit_name env) then Ok (own_data r)
  else match peer_data r !! bag with
       | Some d => Ok d
       | None => Raise (KeyError bag)
       end.

(** [self.peers.data[bag][key] = value]: only the unit's own bag is
    writable. *)
Definition data_setitem (r : Relation) (bag key value : string) : result Relation :=
  match data_getitem r bag with
  | Raise e => Raise e
  | Ok d =>
      if decide (bag = unit_name env)
      then Ok (mkRelation (<[key := PStr value]> d) (peer_data r))
      else Raise RelationDataError
  end.

(** [bag] is [None] for a missing (falsy) entity. *)
Definition get_peer_data_str (bag : option string) (key : string) : M string :=
  do p <- get peers;
  match p, bag with
  | Some r, Some b =>
      if decide (key = "") then ret ""
      else
        do d <- lift (data_getitem r b);
        match default (PStr "") (d !! key) with
        | PStr s => ret s
        | _ => ret ""
        end
  | _, _ => ret ""
  end.

Definition set_peer_data_str (bag : option string) (key value : string) : M unit :=
  do p <- get peers;
  match p, bag with
  | Some _, Some b =>
      if decide (key = "") then ret tt
      else
        do old_value <- get_peer_data_str bag key;
        if decide (old_value = value) then ret tt
        else
          do p' <- get peers;
          match p' with
          | Some r =>
              do r' <- lift (data_setitem r b key value);
              modify (with_peers (Some r'))
          | None => raise AttributeError
          end
  | _, _ => ret tt
  end.

(** ** Configuration *)

(** [config_changed]: the options whose value is new or differs from the
    stored snapshot. *)
Definition config_changed : M (gmap string pyval) :=
  do old_config <- get stored_config;
  ret (map_imap (fun k v =>
         match old_config !! k with
         | None => Some v
         | Some o => if py_eq v o then None else Some v
         end) (config env)).

Definition config_is_valid : M bool :=
  do _changed <- config_changed;
  ret true.

Definition config_getitem (k : string) : M pyval :=
  match config env !! k with
  | Some v => ret v
  | None => raise (KeyError k)
  end.

Definition stored_config_getitem (k : string) : M pyval :=
  do c <- get stored_config;
  match c !! k with
  | Some v => ret v
  | None => raise (KeyError k)
  end.

Definition stored_config_setitem (k : string) (v : pyval) : M unit :=
  modify (fun w => with_stored_config (<[k := v]> (stored_config w)) w).

(** ** Snap installation *)

Definition ensure (name : string) (channel : pyval) (cohort : option string) : M unit :=
  record_effect (SnapEnsure name channel cohort) >>
  match snap_ensure env name channel with
  | Some msg => raise (SnapError msg)
  | None => ret tt
  end.

Definition ensure_if_absent (name key : string) : M unit :=
  if snap_present env name then ret tt
  else do ch <- config_getitem key; ensure name ch (Some "+").

Definition snap_install_microcloud : M unit :=
  try_except
    (ensure "snapd" (PStr "stable") None >>
     ensure_if_absent "microcloud" "snap-channel-microcloud" >>
     do microceph_enabled <- config_getitem "microceph";
     when (truthy microceph_enabled)
       (ensure_if_absent "microceph" "snap-channel-microceph" >>
        do _r <- subprocess_run env ["rm"; "-rf"; "/etc/ceph"] false true (Some 600);
        do _l <- subprocess_run env
                   ["ln"; "-s"; "/var/snap/microceph/current/conf/"; "/etc/ceph"]
                   false true (Some 600);
        ret tt) >>
     do microovn_enabled <- config_getitem "microovn";
     when (truthy microovn_enabled)
       (ensure_if_absent "microovn" "snap-channel-microovn") >>
     ensure_if_absent "lxd" "snap-channel-lxd")
    (fun e =>
       match e with
       | SnapError _ =>
           Some (unit_blocked (Lit "An exception occurred when installing snap packages") >>
                 raise RuntimeError)
       | _ => None
       end) >>
  do lxd <- config_getitem "snap-channel-lxd";
  stored_config_setitem "snap-channel-lxd" lxd >>
  do microcloud <- config_getitem "snap-channel-microcloud";
  stored_config_setitem "snap-channel-microcloud" microcloud >>
  do microceph <- config_getitem "snap-channel-microceph";
  stored_config_setitem "snap-channel-microceph" microceph >>
  do microovn <- config_getitem "snap-channel-microovn";
  stored_config_setitem "snap-channel-microovn" microovn.

(** The two handlers of a failed checked command that every tool wrapper
    shares: report, then raise [RuntimeError]. *)
Definition on_command_error (e : exn) : option (M unit) :=
  match e with
  | CalledProcessError cmd rc stderr =>
      Some (unit_blocked (FailedToRun cmd stderr rc) >> raise RuntimeError)
  | TimeoutExpired cmd =>
      Some (unit_blocked (TimeoutExceeded cmd) >> raise RuntimeError)
  | _ => None
  end.

(** ** MicroCloud operations *)

Definition microcloud_init_argv : list string := ["microcloud"; "init"; "--auto"].
Definition microceph_enable_rgw_argv : list string := ["microceph"; "enable"; "rgw"].
Definition microcloud_add_argv : list string := ["microcloud"; "add"; "--auto"].
Definition lxc_cluster_list : list string := ["lxc"; "cluster"; "list"].
Definition lxc_list_argv : list string := ["lxc"; "list"; "--all-projects"; "--format=json"].

Definition microcloud_init : M unit :=
  unit_maintenance (Lit "Initializing MicroCloud") >>
  try_except
    (do _init <- subprocess_run env microcloud_init_argv true true (Some 600);
     do _rgw <- subprocess_run env microceph_enable_rgw_argv false true (Some 600);
     ret tt)
    on_command_error.

Definition microcloud_add : M unit :=
  unit_maintenance (Lit "Adding node to MicroCloud") >>
  try_except
    (do _add <- subprocess_run env microcloud_add_argv true true (Some 600);
     ret tt)
    on_command_error.

(** *** Removal *)

(** [for inst in instances]: what iterating a JSON value yields. *)
Definition py_iter (j : json) : result (list json) :=
  match j with
  | JArr l => Ok l
  | JObj kvs => Ok (JStr <$> kvs.*1)
  | JStr s => Ok ((fun c => JStr (String c EmptyString)) <$> list_ascii_of_string s)
  | _ => Raise TypeError
  end.

Fixpoint assoc_lookup (k : string) (kvs : list (string * json)) : option json :=
  match kvs with
  | [] => None
  | (k', v) :: rest => if decide (k' = k) then Some v else assoc_lookup k rest
  end.

(** [inst[key]] with a string key. *)
Definition py_getitem (inst : json) (key : string) : result json :=
  match inst with
  | JObj kvs =>
      match assoc_lookup key kvs with
      | Some v => Ok v
      | None => Raise (KeyError key)
      end
  | _ => Raise TypeError
  end.

(** [v == s] for a string [s]. *)
Definition json_eq_str (v : json) (s : string) : bool :=
  match v with
  | JStr s' => bool_decide (s' = s)
  | _ => false
  end.

(** The loop of the safety check; [true] when the method has returned from
    inside the loop. *)
Fixpoint instances_loop (instances : list json) (node_name_to_remove : string) : M bool :=
  match instances with
  | [] => ret false
  | inst :: rest =>
      do location <- lift (py_getitem inst "location");
      if json_eq_str location node_name_to_remove
      then unit_blocked (Lit "This Microcloud unit contains instances. You can't remove it.") >>
           ret true
      else instances_loop rest node_name_to_remove
  end.

Definition json_loads_arg (stdout : option string) : M json :=
  match stdout with
  | None => raise TypeError
  | Some s =>
      match json_loads env s with
      | Some j => ret j
      | None => raise JSONDecodeError
      end
  end.

(** Body of the first [try] block of [microcloud_remove]; [true] when it
    returned. *)
Definition inspect_instances (node_name_to_remove : string) : M bool :=
  do result <- subprocess_run env lxc_list_argv true false None;
  do instances <- json_loads_arg (cp_stdout result);
  do insts <- lift (py_iter instances);
  instances_loop insts node_name_to_remove.

(** First [try] block of [microcloud_remove], with its two [except] clauses. *)
Definition removal_safety_check (node_name_to_remove : string) : M bool :=
  try_except (inspect_instances node_name_to_remove)
    (fun e =>
       match e with
       | CalledProcessError _ _ _ =>
           Some (unit_blocked (FailedToRemove node_name_to_remove e) >> raise RuntimeError)
       | TimeoutExpired cmd =>
           Some (unit_blocked (TimeoutExceeded cmd) >> raise RuntimeError)
       | _ => None
       end).

(** Second [try] block of [microcloud_remove]. *)
Definition removal_steps (node_name_to_remove : string) : M unit :=
  try_except
    (do _lxd <- subprocess_run env ["lxc"; "cluster"; "remove"; node_name_to_remove]
                  true true (Some 600);
     do microceph <- stored_config_getitem "snap-channel-microceph";
     when (truthy microceph)
       (do _ceph <- subprocess_run env ["microceph"; "cluster"; "remove"; node_name_to_remove]
                      true true (Some 600);
        ret tt) >>
     do microovn <- stored_config_getitem "snap-channel-microovn";
     when (truthy microovn)
       (do _ovn <- subprocess_run env ["microovn"; "cluster"; "remove"; node_name_to_remove]
                     true true (Some 600);
        ret tt) >>
     do _mc <- subprocess_run env ["microcloud"; "cluster"; "remove"; node_name_to_remove]
                 true true (Some 600);
     ret tt)
    on_command_error.

Definition microcloud_remove (node_name_to_remove : string) : M unit :=
  do returned <- removal_safety_check node_name_to_remove;
  if returned then ret tt
  else
    unit_maintenance (Lit "Removing node from MicroCloud") >>
    removal_steps node_name_to_remove.

(** *** Side-loaded resources *)

(** [snap.restart(reload=True)]: like the other snap operations it raises
    [SnapError] when the snap daemon refuses. *)
Definition restart (name : string) : M unit :=
  record_effect (SnapRestart name) >>
  match snap_restart env name with
  | Some msg => raise (SnapError msg)
  | None => ret tt
  end.

(** [os.path.getsize(path)]: [FileNotFoundError] on a path that does not
    exist. *)
Definition os_path_getsize (path : string) : M Z :=
  match getsize env path with
  | Some size => ret size
  | None => raise (FileNotFoundError [path])
  end.

Definition microcloud_reload : M unit :=
  unit_maintenance (Lit "Reloading MicroCloud") >>
  try_except
    (do _w <- subprocess_run env ["microcloud"; "waitready"; "--timeout=30"] true false None;
     when (snap_present env "microcloud") (restart "microcloud"))
    (fun e =>
       match e with
       | CalledProcessError cmd rc stderr =>
           Some (unit_blocked (FailedToRun cmd stderr rc) >> raise RuntimeError)
       | _ => None
       end).

Definition snap_sideload_microcloud : M unit :=
  do path <- get microcloud_snap_path;
  do size <- os_path_getsize path;
  if size =? 0 then
    do channel <- stored_config_getitem "snap-channel-microcloud";
    try_except (ensure "microcloud" channel None)
      (fun e =>
         match e with
         | SnapError msg => Some (unit_blocked (FailedToRefresh msg) >> raise RuntimeError)
         | _ => None
         end)
  else
    try_except
      (record_effect (SnapInstallLocal path) >>
       match snap_install_local env path with
       | Some msg => raise (SnapError msg)
       | None => ret tt
       end)
      (fun e =>
         match e with
         | SnapError msg => Some (unit_blocked (FailedToSideload msg) >> raise RuntimeError)
         | _ => None
         end) >>
    try_except
      (do _s <- subprocess_run env
                  ["systemctl"; "enable"; "--now"; "snap.microcloud.daemon.unix.socket"]
                  true true (Some 600);
       ret tt)
      on_command_error.

Definition microcloud_debug : string := "/var/snap/microcloud/common/microcloud.debug".

Definition snap_sideload_microcloud_binary : M unit :=
  do path <- get microcloud_binary_path;
  do size <- os_path_getsize path;
  (if size =? 0 then
     when (path_exists env microcloud_debug) (record_effect (OsRemove microcloud_debug))
   else
     when (path_exists env microcloud_debug) (record_effect (OsRemove microcloud_debug)) >>
     record_effect (CopyFile path microcloud_debug) >>
     record_effect (Chmod microcloud_debug 493)) >>
  microcloud_reload.

(** One half of [resource_sideload]: fetch the resource [name], unpack it
    when it is a tarball, store the resulting path with [store], and apply
    it with [sideload].  The iteration order of the intersection of two sets
    is the interpreter's: [set_order] picks the member visited first. *)
Definition sideload_resource (name fname_suffix : string)
    (store : string → World → World) (stored : World → string)
    (sideload : M unit) : M unit :=
  let arch := machine env in
  let possible_archs := if decide (arch = "x86_64") then ["x86_64"; "amd64"] else [arch] in
  let resource := default "" (resource_fetch env name) in
  do tmp_dir <-
    (if negb (String.eqb resource "") && is_tarfile env resource then
       let valid_names := (fun x => "microcloud_" +:+ x +:+ fname_suffix) <$> possible_archs in
       let found := List.filter (fun f => bool_decide (f ∈ tar_getnames env resource)) valid_names in
       match found !! (set_order env found `mod` length found)%nat with
       | Some f =>
           record_effect (TarExtract resource f (mkdtemp env)) >>
           modify (store (mkdtemp env +:+ "/" +:+ f)) >>
           ret (mkdtemp env)
       | None => ret (mkdtemp env)
       end
     else modify (store resource) >> ret "");
  do path <- get stored;
  when (negb (String.eqb path ""))
    (sideload >>
     when (negb (String.eqb tmp_dir ""))
       (record_effect (OsRemove path) >> record_effect (OsRmdir tmp_dir))).

Definition resource_sideload : M unit :=
  sideload_resource "microcloud-snap" ".snap" with_snap_path microcloud_snap_path
    snap_sideload_microcloud >>
  sideload_resource "microcloud-binary" "" with_binary_path microcloud_binary_path
    snap_sideload_microcloud_binary.

(** ** Event handlers *)

(** [_on_charm_config_changed] once the configuration has been accepted. *)
Definition apply_changed_config : M unit :=
  do changed <- config_changed;
  if bool_decide (changed = ∅) then ret tt
  else
    try_except
      (when (bool_decide (is_Some (changed !! "snap-channel-lxd"))
             || bool_decide (is_Some (changed !! "snap-channel-microcloud"))
             || bool_decide (is_Some (changed !! "snap-channel-microceph"))
             || bool_decide (is_Some (changed !! "snap-channel-microovn")))
         snap_install_microcloud)
      (fun e =>
         match e with
         | RuntimeError =>
             Some (unit_blocked (FailedToApply (map_to_list changed).*1) >> event_defer)
         | _ => None
         end).

Definition _on_charm_config_changed : M unit :=
  do valid <- config_is_valid;
  if negb valid then ret tt
  else apply_changed_config.

(** [_on_charm_install] once the configuration has been accepted. *)
Definition install_microcloud : M unit :=
  do installed <-
    try_except (snap_install_microcloud >> ret true)
      (fun e =>
         match e with
         | RuntimeError => Some (event_defer >> ret false)
         | _ => None
         end);
  if installed then resource_sideload else ret tt.

Definition _on_charm_install : M unit :=
  do valid <- config_is_valid;
  if negb valid then ret tt
  else install_microcloud.

Definition _on_cluster_relation_created : M unit :=
  set_peer_data_str (Some (unit_name env)) "clustered" "False".

(** [self.peers.data[unit].get("clustered") == flag]. *)
Definition peer_flag_is (r : Relation) (unit flag : string) : result bool :=
  match data_getitem r unit with
  | Raise e => Raise e
  | Ok d => Ok (bool_decide (d !! "clustered" = Some (PStr flag)))
  end.

(** The [for ... break] loop computing [one_unit_clustered]. *)
Fixpoint one_unit_clustered (r : Relation) (us : list string) : result bool :=
  match us with
  | [] => Ok false
  | unit :: rest =>
      match peer_flag_is r unit "True" with
      | Raise e => Raise e
      | Ok true => Ok true
      | Ok false => one_unit_clustered r rest
      end
  end.

(** The list comprehension computing [new_peers]. *)
Fixpoint new_peers (r : Relation) (us : list string) : result (list bool) :=
  match us with
  | [] => Ok []
  | unit :: rest =>
      match peer_flag_is r unit "False" with
      | Raise e => Raise e
      | Ok b =>
          match new_peers r rest with
          | Raise e => Raise e
          | Ok bs => Ok (b :: bs)
          end
      end
  end.

Definition the_peers : M Relation :=
  do p <- get peers;
  match p with
  | Some r => ret r
  | None => raise AttributeError
  end.

(** Lines 119-121 of the start handler: pending configuration changes are
    applied first. *)
Definition apply_pending_config : M unit :=
  do changed <- config_changed;
  when (negb (bool_decide (changed = ∅))) _on_charm_config_changed.

(** Lines 130-146: some unit is clustered, so this one checks whether the
    init process has clustered it too. *)
Definition check_clustered : M unit :=
  try_except
    (do _p <- subprocess_run env lxc_cluster_list false true (Some 600);
     set_peer_data_str (Some (unit_name env)) "clustered" "True" >>
     unit_active)
    (fun e =>
       match e with
       | CalledProcessError _ _ _ =>
           Some (unit_waiting (Lit "This unit has not joined the cluster yet") >>
                 event_defer)
       | TimeoutExpired _ =>
           Some (unit_blocked (Lit "This unit timed out checking its clustered status"))
       | _ => None
       end).

(** Lines 157-171: the leader bootstraps the cluster. *)
Definition initialize : M unit :=
  try_except
    (microcloud_init >>
     set_peer_data_str (Some (unit_name env)) "clustered" "True" >>
     unit_active)
    (fun e =>
       match e with
       | RuntimeError => Some (unit_blocked (Lit "Failed to initialize MicroCloud"))
       | _ => None
       end).

(** Lines 173-181: not ready yet. *)
Definition wait_for_units : M unit :=
  time_sleep 10 >>
  (if is_leader env
   then unit_waiting (Lit "Leader needs to wait for all units to be ready to bootstrap")
   else unit_waiting (Lit "Unit needs to wait for all units to be ready to bootstrap")) >>
  event_defer.

(** Lines 123-181 of the start handler. [self.peers] is read once: nothing
    writes the relation before the branches that end the handler. *)
Definition bootstrap : M unit :=
  do r <- the_peers;
  do clustered <- lift (one_unit_clustered r (units r));
  if clustered then check_clustered
  else
    do flags <- lift (new_peers r (units r));
    do own <- (if is_leader env
               then get_peer_data_str (Some (unit_name env)) "clustered"
               else ret "");
    if is_leader env
       && bool_decide (own = "False")
       && forallb id flags
       && (planned_units env =? Z.of_nat (length (units r)) + 1)
    then initialize
    else wait_for_units.

Definition _on_charm_start : M unit :=
  apply_pending_config >> bootstrap.

Definition _on_update_status : M unit :=
  try_except
    (do _p <- subprocess_run env lxc_cluster_list false true (Some 600);
     set_peer_data_str (Some (unit_name env)) "clustered" "True" >>
     unit_active)
    (fun e =>
       match e with
       | CalledProcessError _ _ _ =>
           Some (unit_blocked (Lit "This unit has failed to join the cluster"))
       | TimeoutExpired _ =>
           Some (unit_blocked (Lit "This unit timed out checking its clustered status"))
       | _ => None
       end).

Definition _on_cluster_relation_joined (event_unit : option string) : M unit :=
  do own <- (if is_leader env
             then get_peer_data_str (Some (unit_name env)) "clustered"
             else ret "");
  if is_leader env
     && bool_decide (own = "True")
     && bool_decide (event_unit ≠ Some (unit_name env))
  then
    try_except microcloud_add
      (fun e => match e with RuntimeError => Some (ret tt) | _ => None end)
  else ret tt.

Definition _on_charm_stop : M unit :=
  do own <- get_peer_data_str (Some (unit_name env)) "clustered";
  if bool_decide (own = "True") then
    try_except (microcloud_remove (nodename env))
      (fun e => match e with RuntimeError => Some (ret tt) | _ => None end)
  else ret tt.

(** ** Dispatch *)

Inductive event :=
| InstallEvent
| ConfigChangedEvent
| StartEvent
| UpdateStatusEvent
| StopEvent
| RelationCreatedEvent
| RelationJoinedEvent (unit : option string).

(** The observers registered in [__init__]. *)
Definition dispatch (ev : event) : M unit :=
  match ev with
  | InstallEvent => _on_charm_install
  | ConfigChangedEvent => _on_charm_config_changed
  | StartEvent => _on_charm_start
  | UpdateStatusEvent => _on_update_status
  | StopEvent => _on_charm_stop
  | RelationCreatedEvent => _on_cluster_relation_created
  | RelationJoinedEvent unit => _on_cluster_relation_joined unit
  end.

End Charm.

(** One evaluation: the handler of [ev] runs on the unit's state with
    nothing issued, nothing deferred yet. *)
Definition fresh (w : World) : World :=
  mkWorld (unit_status w) (peers w) (stored_config w) (microcloud_binary_path w)
    (microcloud_snap_path w) [] [] false 0.

Definition evaluate (env : Env) (ev : event) (w : World) : result unit * World :=
  dispatch env ev (fresh w).

(** What happens to a unit over time: its handlers run, each in the
    environment of the moment, and between two of them the remote units may
    rewrite their own bags (which also makes the relation visible). *)
Inductive step :=
| Handle (env : Env) (ev : event)
| RemoteUpdate (remote : gmap string (gmap string pyval)).

Definition remote_update (remote : gmap string (gmap string pyval)) (w : World) : World :=
  match peers w with
  | Some r => with_peers (Some (mkRelation (own_data r) remote)) w
  | None => with_peers (Some (mkRelation ∅ remote)) w
  end.

Definition run_step (s : step) (w : World) : World :=
  match s with
  | Handle env ev => (evaluate env ev w).2
  | RemoteUpdate remote => remote_update remote w
  end.

Definition run_steps (steps : list step) (w : World) : World :=
  foldl (fun w s => run_step s w) w steps.

(** * Vocabulary of the statements *)

(** ** The peer data accessors *)

(** The value stored under [key] in the bag of [bag], if any. *)
Definition stored_value env w (bag : option string) (key : string) : option pyval :=
  match peers w, bag with
  | Some r, Some b =>
      match data_getitem env r b with
      | Ok d => d !! key
      | Raise _ => None
      end
  | _, _ => None
  end.

(** The bag is missing, or it is one of the bags of the relation. *)
Definition bag_known env w (bag : option string) : Prop :=
  match peers w, bag with
  | Some r, Some b => ∃ d, data_getitem env r b = Ok d
  | _, _ => True
  end.

(** C8 as stated, for the read: no bag and no key make it raise. *)
Definition read_never_raises env w : Prop :=
  ∀ bag key, ∃ s, (get_peer_data_str env bag key w).1 = Ok s.

(** ** Frames *)

(** [frames R m]: whatever [m] does, its final world is [R]-related to its
    initial one.  For a preorder [R] this is compositional. *)
Definition frames (R : relation World) {A} (m : M A) : Prop :=
  ∀ w, R w (m w).2.

Definition same_peers : relation World := fun w w' => peers w' = peers w.

Definition issues_only (P : list string → Prop) : relation World :=
  fun w w' => ∃ l, issued w' = issued w ++ l ∧ Forall P l.

(** ** Commands and flags *)

(** What becomes of a checked command run with a timeout. *)
Inductive fate := Done | Failed | TimedOut | NotStarted.

Definition fate_of (env : Env) (argv : list string) (timeout : Z) : fate :=
  match proc env argv with
  | SpawnFailed => NotStarted
  | Exited rc _ _ d =>
      if timeout <? d then TimedOut else if rc =? 0 then Done else Failed
  end.

(** The unit's own [clustered] entry, and a remote unit's as the unit reads it. *)
Definition own_flag (w : World) : option pyval :=
  match peers w with
  | Some r => own_data r !! "clustered"
  | None => None
  end.

Definition peer_flag (env : Env) (r : Relation) (u : string) : option pyval :=
  match data_getitem env r u with
  | Ok d => d !! "clustered"
  | Raise _ => None
  end.

Definition one_peer_clustered (env : Env) (r : Relation) : bool :=
  existsb (fun u => bool_decide (peer_flag env r u = Some (PStr "True"))) (units r).

(** The four conditions under which the leader initializes. *)
Definition quorum_ready (env : Env) (r : Relation) : Prop :=
  is_leader env = true
  ∧ own_data r !! "clustered" = Some (PStr "False")
  ∧ Forall (fun u => peer_flag env r u = Some (PStr "False")) (units r)
  ∧ planned_units env = Z.of_nat (length (units r)) + 1.

Definition should_initialize (env : Env) (r : Relation) : bool :=
  is_leader env
  && bool_decide (own_data r !! "clustered" = Some (PStr "False"))
  && forallb (fun u => bool_decide (peer_flag env r u = Some (PStr "False"))) (units r)
  && (planned_units env =? Z.of_nat (length (units r)) + 1).

Definition no_peer_clustered (env : Env) (r : Relation) : Prop :=
  Forall (fun u => peer_flag env r u ≠ Some (PStr "True")) (units r).

(** The relation once the unit has marked itself clustered. *)
Definition mark_clustered (r : Relation) : Relation :=
  mkRelation (<["clustered" := PStr "True"]> (own_data r)) (peer_data r).

Definition is_waiting (st : status) : bool :=
  match st with WaitingStatus _ => true | _ => false end.

Definition is_blocked (st : status) : bool :=
  match st with BlockedStatus _ => true | _ => false end.

(** What a checked command run with a timeout returns or raises. *)
Definition checked_result (env : Env) (argv : list string) (capture : bool) (t : Z)
    : result CompletedProcess :=
  match proc env argv with
  | SpawnFailed => Raise (FileNotFoundError argv)
  | Exited rc out err d =>
      if t <? d then Raise (TimeoutExpired argv)
      else if rc =? 0
           then Ok (mkCompleted rc (if capture then Some out else None)
                      (if capture then Some err else None))
           else Raise (CalledProcessError argv rc (if capture then Some err else None))
  end.

(** What becomes of the initialization: of [microcloud init], then of the
    [microceph enable rgw] that follows it. *)
Definition init_fate (env : Env) : fate :=
  match fate_of env microcloud_init_argv 600 with
  | Done => fate_of env microceph_enable_rgw_argv 600
  | f => f
  end.

(** The only commands the configuration step can run. *)
Definition config_commands : list (list string) :=
  [ ["rm"; "-rf"; "/etc/ceph"];
    ["ln"; "-s"; "/var/snap/microceph/current/conf/"; "/etc/ceph"] ].

(** ** The claims that fail as stated *)

(** C1 as stated: the start trigger initializes only under the four
    conditions, and in every other case reports a waiting state. *)
Definition start_claim (env : Env) (w : World) : Prop :=
  let w' := (evaluate env StartEvent w).2 in
  (microcloud_init_argv ∈ issued w' → ∃ r, peers w = Some r ∧ quorum_ready env r)
  ∧ ((¬ ∃ r, peers w = Some r ∧ quorum_ready env r) →
     is_waiting (unit_status w') = true ∧ microcloud_init_argv ∉ issued w').

(** C2 as stated: on the start trigger and on the update-status trigger
    alike, a health probe that succeeds makes the unit clustered and
    Active. *)
Definition probe_claim (env : Env) (ev : event) (w : World) : Prop :=
  fate_of env lxc_cluster_list 600 = Done →
  own_flag (evaluate env ev w).2 = Some (PStr "True")
  ∧ unit_status (evaluate env ev w).2 = ActiveStatus.

(** C6 as stated: a failed initialization leaves the unit unclustered,
    surfaces an error status and defers the event. *)
Definition failed_init_claim (env : Env) (w : World) : Prop :=
  microcloud_init_argv ∈ issued (evaluate env StartEvent w).2 →
  init_fate env = Failed ∨ init_fate env = TimedOut →
  own_flag (evaluate env StartEvent w).2 ≠ Some (PStr "True")
  ∧ is_blocked (unit_status (evaluate env StartEvent w).2) = true
  ∧ deferred (evaluate env StartEvent w).2 = true.

(** ** The own flag over time *)

Definition flag_rises : relation World :=
  fun w w' => own_flag w' = own_flag w ∨ own_flag w' = Some (PStr "True").

Definition not_relation_created (s : step) : Prop :=
  match s with
  | Handle _ RelationCreatedEvent => False
  | _ => True
  end.

(** ** The removal *)

Definition has_location (inst : json) : Prop :=
  ∃ loc, py_getitem inst "location" = Ok loc.

Definition located_at (node : string) (inst : json) : Prop :=
  py_getitem inst "location" = Ok (JStr node).

Definition refusal : message :=
  Lit "This Microcloud unit contains instances. You can't remove it.".





Definition same_deferred : relation World := fun w w' => deferred w' = deferred w.

(** ** Example deployments *)

Definition quote : string := String (Ascii.ascii_of_nat 34) EmptyString.

(** The listing of one instance living on node0. *)
Definition inventory_text : string :=
  "[{" +:+ quote +:+ "name" +:+ quote +:+ ": " +:+ quote +:+ "c1" +:+ quote +:+ ", "
  +:+ quote +:+ "location" +:+ quote +:+ ": " +:+ quote +:+ "node0" +:+ quote +:+ "}]".

Definition inventory : json :=
  JArr [JObj [("name", JStr "c1"); ("location", JStr "node0")]].

(** A parser for the outputs used in the examples: it rejects the empty
    document, as [json.loads] does. *)
Definition example_loads (s : string) : option json :=
  if decide (s = inventory_text) then Some inventory
  else if decide (s = "[]") then Some (JArr [])
  else None.

Definition example_env (leader : bool) (planned : Z)
    (procs : list string → proc_behaviour) : Env :=
  mkEnv "microcloud/0" leader planned ∅ "node0" "x86_64" procs example_loads
    (fun _ => true) (fun _ _ => None) (fun _ => None) (fun _ => None) (fun _ => None)
    (fun _ => false) (fun _ => []) (fun _ => 0%nat) "/tmp/sideload" (fun _ => Some 0)
    (fun _ => false).

Definition flag_bag (flag : string) : gmap string pyval := {[ "clustered" := PStr flag ]}.

Definition example_world (own : gmap string pyval)
    (remote : gmap string (gmap string pyval)) : World :=
  mkWorld (MaintenanceStatus (Lit "")) (Some (mkRelation own remote))
    {[ "snap-channel-microceph" := PStr "latest/stable";
       "snap-channel-microovn" := PStr "" ]} "" "" [] [] false 0.

Definition all_succeed : list string → proc_behaviour :=
  fun argv => if decide (argv = lxc_list_argv) then Exited 0 "[]" "" 1
              else Exited 0 "" "" 1.

Definition init_fails : list string → proc_behaviour :=
  fun argv => if decide (argv = microcloud_init_argv) then Exited 1 "" "no peers" 3
              else Exited 0 "" "" 1.

Definition listing_fails : list string → proc_behaviour :=
  fun argv => if decide (argv = lxc_list_argv) then Exited 1 "" "cannot connect" 1
              else Exited 0 "" "" 1.

Definition listing_occupied : list string → proc_behaviour :=
  fun argv => if decide (argv = lxc_list_argv) then Exited 0 inventory_text "" 1
              else Exited 0 "" "" 1.


(** Two of three planned units are there, nobody clustered. *)
Definition two_of_three : World :=
  example_world (flag_bag "False") {[ "microcloud/1" := flag_bag "False" ]}.

(** A peer is clustered already, this unit's flag is stale. *)
Definition peer_clustered : Relation :=
  mkRelation (flag_bag "False") {[ "microcloud/1" := flag_bag "True" ]}.

Definition clustered_world : World :=
  example_world (flag_bag "True") {[ "microcloud/1" := flag_bag "True" ]}.

Definition fresh_unit : World := example_world ∅ ∅.

Definition rising_steps : list step :=
  [ Handle (example_env true 2 all_succeed) StartEvent;
    RemoteUpdate {[ "microcloud/1" := flag_bag "True" ]};
    Handle (example_env true 2 all_succeed) UpdateStatusEvent;
    Handle (example_env true 2 all_succeed) (RelationJoinedEvent (Some "microcloud/1")) ].

Definition falling_steps : list step :=
  [ Handle (example_env false 2 all_succeed) RelationCreatedEvent;
    Handle (example_env false 2 all_succeed) UpdateStatusEvent;
    Handle (example_env false 2 all_succeed) RelationCreatedEvent ].

(** C3 as stated: once the flag is "True" it is "True" ever after. *)
Definition flag_never_falls (steps : list step) (w : World) : Prop :=
  ∀ n, own_flag (run_steps (take n steps) w) = Some (PStr "True") →
       own_flag (run_steps steps w) = Some (PStr "True").
(** * Further properties: vocabulary *)

(** The four options kept in the stored snapshot. *)
Definition channel_options : list string :=
  [ "snap-channel-lxd"; "snap-channel-microcloud";
    "snap-channel-microceph"; "snap-channel-microovn" ].

(** The options whose value is new or differs from the snapshot, as a pure
    function of the configuration and the snapshot. *)
Definition delta (env : Env) (w : World) : gmap string pyval :=
  match (config_changed env w).1 with
  | Ok changed => changed
  | Raise _ => ∅
  end.

(** The stored snapshot after a successful installation: the four channel
    options take the configured values. *)
Definition snapshot_after (env : Env) (stored : gmap string pyval) : gmap string pyval :=
  let configured k := default PNone (config env !! k) in
  <["snap-channel-microovn" := configured "snap-channel-microovn"]>
    (<["snap-channel-microceph" := configured "snap-channel-microceph"]>
       (<["snap-channel-microcloud" := configured "snap-channel-microcloud"]>
          (<["snap-channel-lxd" := configured "snap-channel-lxd"]> stored))).

Definition snap_failure : message :=
  Lit "An exception occurred when installing snap packages".

(** The two halves of [snap_install_microcloud]: the guarded block and the
    assignments after it ([snap_install_split] shows they are its parts). *)
Definition install_snaps (env : Env) : M unit :=
  ensure env "snapd" (PStr "stable") None >>
  ensure_if_absent env "microcloud" "snap-channel-microcloud" >>
  do microceph_enabled <- config_getitem env "microceph";
  when (truthy microceph_enabled)
    (ensure_if_absent env "microceph" "snap-channel-microceph" >>
     do _r <- subprocess_run env ["rm"; "-rf"; "/etc/ceph"] false true (Some 600);
     do _l <- subprocess_run env
                ["ln"; "-s"; "/var/snap/microceph/current/conf/"; "/etc/ceph"]
                false true (Some 600);
     ret tt) >>
  do microovn_enabled <- config_getitem env "microovn";
  when (truthy microovn_enabled)
    (ensure_if_absent env "microovn" "snap-channel-microovn") >>
  ensure_if_absent env "lxd" "snap-channel-lxd".

Definition on_snap_error (e : exn) : option (M unit) :=
  match e with
  | SnapError _ => Some (unit_blocked snap_failure >> raise RuntimeError)
  | _ => None
  end.

Definition record_channels (env : Env) : M unit :=
  do lxd <- config_getitem env "snap-channel-lxd";
  stored_config_setitem "snap-channel-lxd" lxd >>
  do microcloud <- config_getitem env "snap-channel-microcloud";
  stored_config_setitem "snap-channel-microcloud" microcloud >>
  do microceph <- config_getitem env "snap-channel-microceph";
  stored_config_setitem "snap-channel-microceph" microceph >>
  do microovn <- config_getitem env "snap-channel-microovn";
  stored_config_setitem "snap-channel-microovn" microovn.

(** [raises_only P m]: every exception that leaves [m] satisfies [P]. *)
Definition raises_only (P : exn → Prop) {A} (m : M A) : Prop :=
  ∀ w e, (m w).1 = Raise e → P e.

(** The status, the stored snapshot and the deferral are left alone. *)
Definition same_unit : relation World :=
  fun w w' => unit_status w' = unit_status w
              ∧ stored_config w' = stored_config w
              ∧ deferred w' = deferred w.

(** A deployment with MicroCeph enabled and MicroOVN disabled. *)
Definition deploy_config : gmap string pyval :=
  {[ "microceph" := PBool true;
     "microovn" := PBool false;
     "snap-channel-lxd" := PStr "5.21/stable";
     "snap-channel-microcloud" := PStr "latest/stable";
     "snap-channel-microceph" := PStr "latest/stable";
     "snap-channel-microovn" := PStr "22.03/stable" ]}.

(** The same with MicroCeph disabled too. *)
Definition lean_config : gmap string pyval :=
  <["microceph" := PBool false]> deploy_config.

Definition deploy_env (cfg : gmap string pyval) (present : string → bool)
    (ensure_result : string → pyval → option string)
    (fetch : string → option string) (size : string → option Z)
    (procs : list string → proc_behaviour) : Env :=
  mkEnv "microcloud/0" true 3 cfg "node0" "x86_64" procs example_loads
    present ensure_result (fun _ => None) (fun _ => None) fetch
    (fun _ => false) (fun _ => []) (fun _ => 0%nat) "/tmp/sideload" size
    (fun _ => false).

Definition nothing_present : string → bool := fun _ => false.

Definition store_is_down : string → pyval → option string :=
  fun name _ => if decide (name = "microceph") then Some "cannot reach the store" else None.

Definition store_is_up : string → pyval → option string := fun _ _ => None.

Definition no_resource : string → option string := fun _ => None.

Definition no_size : string → option Z := fun _ => Some 0.

(** A unit just deployed: empty snapshot, no relation yet. *)
Definition new_unit : World :=
  mkWorld (MaintenanceStatus (Lit "")) None ∅ "" "" [] [] false 0.

(** A unit whose snapshot has the channels of [deploy_config], deployed
    when MicroCeph was disabled. *)
Definition settled_unit : World :=
  mkWorld ActiveStatus None lean_config "" "/var/lib/juju/resources/microcloud.snap"
    [] [] false 0.

(** The environment of an installation that goes through, and of one whose
    store cannot deliver MicroCeph. *)
Definition good_install : Env :=
  deploy_env deploy_config nothing_present store_is_up no_resource no_size all_succeed.

Definition bad_install : Env :=
  deploy_env deploy_config nothing_present store_is_down no_resource no_size all_succeed.

Definition lean_install : Env :=
  deploy_env lean_config nothing_present store_is_up no_resource no_size all_succeed.





(** An instance the safety check lets pass: it has a location, and the
    location is not the node to remove. *)
Definition clear_of (node : string) (inst : json) : Prop :=
  ∃ loc, py_getitem inst "location" = Ok loc ∧ loc ≠ JStr node.

Definition probe_fails : list string → proc_behaviour :=
  fun argv => if decide (argv = lxc_cluster_list) then Exited 1 "" "not clustered" 1
              else Exited 0 "" "" 1.

Definition add_fails : list string → proc_behaviour :=
  fun argv => if decide (argv = microcloud_add_argv) then Exited 1 "" "no such peer" 2
              else Exited 0 "" "" 1.

(** A listing whose single instance has no location. *)
Definition unlocated_text : string := "[{}]".

Definition unlocated_loads (s : string) : option json :=
  if decide (s = unlocated_text) then Some (JArr [JObj []]) else None.

Definition listing_unlocated : list string → proc_behaviour :=
  fun argv => if decide (argv = lxc_list_argv) then Exited 0 unlocated_text "" 1
              else Exited 0 "" "" 1.

Definition unlocated_env : Env :=
  mkEnv "microcloud/0" false 2 ∅ "node0" "x86_64" listing_unlocated unlocated_loads
    (fun _ => true) (fun _ _ => None) (fun _ => None) (fun _ => None) (fun _ => None)
    (fun _ => false) (fun _ => []) (fun _ => 0%nat) "/tmp/sideload" (fun _ => Some 0)
    (fun _ => false).

(** A world without the peer relation. *)
Definition no_relation : World :=
  mkWorld (MaintenanceStatus (Lit "")) None ∅ "" "" [] [] false 0.

Definition waitready_argv : list string := ["microcloud"; "waitready"; "--timeout=30"].

Definition socket_argv : list string :=
  ["systemctl"; "enable"; "--now"; "snap.microcloud.daemon.unix.socket"].

(** The effect of [microcloud_reload] on the snap daemon. *)
Definition restart_effects (env : Env) : list effect :=
  match proc env waitready_argv with
  | Exited _ _ _ _ =>
      if snap_present env "microcloud" then [SnapRestart "microcloud"] else []
  | SpawnFailed => []
  end.

(** What [microcloud_reload] returns: it fails on a command that cannot be
    started and on a restart the snap daemon refuses, on nothing else. *)
Definition reload_result (env : Env) : result unit :=
  match proc env waitready_argv with
  | Exited _ _ _ _ =>
      if snap_present env "microcloud"
      then match snap_restart env "microcloud" with
           | Some msg => Raise (SnapError msg)
           | None => Ok tt
           end
      else Ok tt
  | SpawnFailed => Raise (FileNotFoundError waitready_argv)
  end.

(** The member names [resource_sideload] looks for in a tarball. *)
Definition valid_names (env : Env) (fname_suffix : string) : list string :=
  (fun x => "microcloud_" +:+ x +:+ fname_suffix)
    <$> (if decide (machine env = "x86_64") then ["x86_64"; "amd64"] else [machine env]).

(** No command is issued. *)
Definition same_issued : relation World := fun w w' => issued w' = issued w.

(** The snap operations recorded are on snaps satisfying [P]. *)
Definition ensures_only (P : string → Prop) : relation World :=
  fun w w' => ∃ l, effects w' = effects w ++ l
                   ∧ Forall (fun e => match e with
                                      | SnapEnsure name _ _ => P name
                                      | _ => True
                                      end) l.

Definition waitready_fails : list string → proc_behaviour :=
  fun argv => if decide (argv = waitready_argv) then Exited 1 "" "not ready" 45
              else Exited 0 "" "" 1.

(** A resource that is a tarball without a member for the architecture. *)
Definition tarball : string := "/var/lib/juju/resources/microcloud.tar".

Definition tarball_env : Env :=
  mkEnv "microcloud/0" true 3 deploy_config "node0" "aarch64" all_succeed example_loads
    (fun _ => true) (fun _ _ => None) (fun _ => None) (fun _ => None)
    (fun name => if decide (name = "microcloud-snap") then Some tarball else None)
    (fun path => bool_decide (path = tarball)) (fun _ => ["microcloud_amd64.snap"])
    (fun _ => 0%nat) "/tmp/sideload" (fun _ => Some 4096) (fun _ => false).

Definition big_file : string → option Z := fun _ => Some 4096.

(** * Verification *)

(** ** Running the monad *)

Lemma bind_ok {A B} (m : M A) (k : A → M B) w a w' :
  m w = (Ok a, w') → bind m k w = k a w'.
Proof. intros H. unfold bind. by rewrite H. Qed.

Lemma bind_raise {A B} (m : M A) (k : A → M B) w e w' :
  m w = (Raise e, w') → bind m k w = (Raise e, w').
Proof. intros H. unfold bind. by rewrite H. Qed.

Lemma try_except_ok {A} (m : M A) h w a w' :
  m w = (Ok a, w') → try_except m h w = (Ok a, w').
Proof. intros H. unfold try_except. by rewrite H. Qed.

Lemma try_except_caught {A} (m : M A) h w e w' k :
  m w = (Raise e, w') → h e = Some k → try_except m h w = k w'.
Proof. intros H1 H2. unfold try_except. by rewrite H1, H2. Qed.

Lemma try_except_uncaught {A} (m : M A) h w e w' :
  m w = (Raise e, w') → h e = None → try_except m h w = (Raise e, w').
Proof. intros H1 H2. unfold try_except. by rewrite H1, H2. Qed.

(** ** C10: configuration validation *)

Lemma config_changed_pure env w : ∃ changed, config_changed env w = (Ok changed, w).
Proof. eexists. reflexivity. Qed.

(** C10. [config_is_valid] returns [True] on every configuration and every
    stored snapshot, without raising and without touching the unit; hence the
    install and the config-changed handlers never take their early return:
    each behaves as the code after its validity test. *)
Theorem config_is_always_valid env w :
  config_is_valid env w = (Ok true, w)
  ∧ _on_charm_install env w = install_microcloud env w
  ∧ _on_charm_config_changed env w = apply_changed_config env w.
Proof.
  assert (Hvalid : config_is_valid env w = (Ok true, w)) by reflexivity.
  split; [exact Hvalid|]. split.
  - unfold _on_charm_install. by rewrite (bind_ok _ _ _ _ _ Hvalid).
  - unfold _on_charm_config_changed. by rewrite (bind_ok _ _ _ _ _ Hvalid).
Qed.

(** ** C8: the peer data accessors *)

Lemma get_peer_data_str_known env w bag key :
  bag_known env w bag →
  get_peer_data_str env bag key w =
    (Ok (if decide (key = "") then ""
         else match stored_value env w bag key with
              | Some (PStr s) => s
              | _ => ""
              end), w).
Proof.
  unfold bag_known, stored_value, get_peer_data_str, bind, get, lift, ret.
  destruct (peers w) as [r|]; [|by case_decide].
  destruct bag as [b|]; [|by case_decide].
  intros [d ->]. case_decide; [done|].
  destruct (d !! key) as [[]|]; done.
Qed.

Lemma with_peers_same w : with_peers (peers w) w = w.
Proof. by destruct w. Qed.

(** C8 (amended). For every key and every bag that is missing or belongs
    to the relation (the unit's own bag or a known peer's), the read returns
    a string and changes nothing; it returns the empty string when the
    relation, the bag or the key is absent or the stored value is not a
    string, and the stored string otherwise.  The write changes nothing when
    the value to store is the string already stored. *)
Theorem peer_data_accessors env w bag key :
  bag_known env w bag →
  (∃ s, get_peer_data_str env bag key w = (Ok s, w))
  ∧ (peers w = None ∨ bag = None ∨ key = ""
     ∨ stored_value env w bag key = None
     ∨ (∃ v, stored_value env w bag key = Some v ∧ ∀ s, v ≠ PStr s) →
     get_peer_data_str env bag key w = (Ok "", w))
  ∧ (∀ s, key ≠ "" → stored_value env w bag key = Some (PStr s) →
     get_peer_data_str env bag key w = (Ok s, w))
  ∧ (∀ value, stored_value env w bag key = Some (PStr value) →
     set_peer_data_str env bag key value w = (Ok tt, w)).
Proof.
  intros Hk. pose proof (get_peer_data_str_known env w bag key Hk) as Hget.
  split; [eauto|]. split; [|split].
  - rewrite Hget. intros H. case_decide; [done|].
    destruct H as [H|[H|[H|[H|(v & H & Hv)]]]].
    + unfold stored_value. by rewrite H.
    + unfold stored_value. rewrite H. by destruct (peers w).
    + done.
    + by rewrite H.
    + rewrite H. destruct v; try done. by destruct (Hv s).
  - intros s Hne Hs. rewrite Hget, Hs. by case_decide.
  - intros value Hs. unfold set_peer_data_str.
    unfold bind at 1. unfold get at 1.
    destruct (peers w) as [r|] eqn:Hp; [|done].
    destruct bag as [b|]; [|done].
    destruct (decide (key = "")) as [|Hne]; [done|].
    rewrite (bind_ok _ _ _ _ _ Hget), Hs.
    by rewrite decide_True.
Qed.

(** ** Frame reasoning *)

Section Frames.
Context (R : relation World) `{!PreOrder R}.

Lemma frames_ret {A} (a : A) : frames R (ret a).
Proof. intros w. reflexivity. Qed.

Lemma frames_raise {A} e : frames R (raise (A := A) e).
Proof. intros w. reflexivity. Qed.

Lemma frames_get {A} (f : World → A) : frames R (get f).
Proof. intros w. reflexivity. Qed.

Lemma frames_lift {A} (r : result A) : frames R (lift r).
Proof. intros w. reflexivity. Qed.

Lemma frames_modify f : (∀ w, R w (f w)) → frames R (modify f).
Proof. intros H w. apply H. Qed.

Lemma frames_bind {A B} (m : M A) (k : A → M B) :
  frames R m → (∀ a, frames R (k a)) → frames R (bind m k).
Proof.
  intros Hm Hk w. unfold bind. specialize (Hm w).
  destruct (m w) as [[a|e] w1]; simpl in *; [|done].
  etrans; [exact Hm|apply Hk].
Qed.

Lemma frames_try_except {A} (m : M A) h :
  frames R m → (∀ e k, h e = Some k → frames R k) → frames R (try_except m h).
Proof.
  intros Hm Hh w. unfold try_except. specialize (Hm w).
  destruct (m w) as [[a|e] w1]; simpl in *; [done|].
  destruct (h e) as [k|] eqn:He; [|done].
  etrans; [exact Hm|by apply (Hh e)].
Qed.

Lemma frames_when b m : frames R m → frames R (when b m).
Proof. intros Hm. destruct b; [done|apply frames_ret]. Qed.

Lemma frames_subprocess_run env argv capture check timeout :
  (∀ w, R w (with_issued (issued w ++ [argv]) w)) →
  frames R (subprocess_run env argv capture check timeout).
Proof.
  intros H. unfold subprocess_run. apply frames_bind; [by apply frames_modify|].
  intros _. destruct (proc env argv); [|by apply frames_raise].
  destruct timeout; repeat case_match; by (apply frames_raise || apply frames_ret).
Qed.

End Frames.

Create HintDb frames discriminated.

(** [frames_go leaf] walks through a monadic term, leaving to [leaf] the
    side conditions on [modify] and [subprocess_run]. *)
Ltac frames_handler :=
  let e := fresh "e" in let k := fresh "k" in let H := fresh "H" in
  intros e k H; destruct e; simpl in H; try discriminate H;
  injection H as <-.

Ltac frames_go leaf :=
  repeat first
    [ match goal with |- PreOrder _ => apply _ end
    | assumption
    | solve [auto with frames nocore]
    | apply frames_subprocess_run; [..|intros ?; leaf]
    | apply frames_ret | apply frames_raise | apply frames_get | apply frames_lift
    | apply frames_bind; [..|intros ?]
    | apply frames_try_except; [..|frames_handler]
    | apply frames_when
    | apply frames_modify; [..|intros ?; leaf]
    | match goal with
      | |- frames _ (if ?b then _ else _) => destruct b
      | |- frames _ (match ?x with _ => _ end) => destruct x
      end ].

#[local] Instance same_peers_preorder : PreOrder same_peers.
Proof. split; [done|]. intros a b c H1 H2. unfold same_peers in *. congruence. Qed.

#[local] Instance issues_only_preorder P : PreOrder (issues_only P).
Proof.
  split.
  - intros w. exists []. by rewrite app_nil_r.
  - intros a b c (l1 & H1 & F1) (l2 & H2 & F2). exists (l1 ++ l2).
    split; [by rewrite H2, H1, app_assoc|by apply Forall_app].
Qed.

Ltac same_peers_leaf := reflexivity.

Lemma snap_install_same_peers env : frames same_peers (snap_install_microcloud env).
Proof.
  unfold snap_install_microcloud, ensure_if_absent, ensure, config_getitem,
    stored_config_setitem, record_effect, unit_blocked.
  frames_go same_peers_leaf.
Qed.

#[local] Hint Resolve snap_install_same_peers : frames.

Ltac frames_with leaf := frames_go leaf.

Lemma config_changed_same_peers env : frames same_peers (config_changed env).
Proof. unfold config_changed. frames_go same_peers_leaf. Qed.
#[local] Hint Resolve config_changed_same_peers : frames.

Lemma apply_changed_config_same_peers env : frames same_peers (apply_changed_config env).
Proof.
  unfold apply_changed_config, unit_blocked, event_defer.
  frames_with same_peers_leaf.
Qed.
#[local] Hint Resolve apply_changed_config_same_peers : frames.

Lemma config_changed_handler_same_peers env :
  frames same_peers (_on_charm_config_changed env).
Proof. unfold _on_charm_config_changed, config_is_valid. frames_with same_peers_leaf. Qed.
#[local] Hint Resolve config_changed_handler_same_peers : frames.

Lemma apply_pending_config_same_peers env : frames same_peers (apply_pending_config env).
Proof. unfold apply_pending_config. frames_with same_peers_leaf. Qed.
#[local] Hint Resolve apply_pending_config_same_peers : frames.

Lemma microcloud_init_same_peers env : frames same_peers (microcloud_init env).
Proof.
  unfold microcloud_init, on_command_error, unit_maintenance, unit_blocked.
  frames_with same_peers_leaf.
Qed.

Lemma microcloud_add_same_peers env : frames same_peers (microcloud_add env).
Proof.
  unfold microcloud_add, on_command_error, unit_maintenance, unit_blocked.
  frames_with same_peers_leaf.
Qed.

Lemma instances_loop_same_peers insts node : frames same_peers (instances_loop insts node).
Proof.
  induction insts as [|inst rest IH]; simpl; unfold unit_blocked;
    frames_with same_peers_leaf.
Qed.
#[local] Hint Resolve instances_loop_same_peers : frames.

Lemma microcloud_remove_same_peers env node : frames same_peers (microcloud_remove env node).
Proof.
  unfold microcloud_remove, removal_safety_check, inspect_instances, removal_steps,
    json_loads_arg,
    stored_config_getitem, on_command_error, unit_maintenance, unit_blocked.
  frames_with same_peers_leaf.
Qed.

Lemma microcloud_reload_same_peers env : frames same_peers (microcloud_reload env).
Proof.
  unfold microcloud_reload, restart, record_effect, unit_maintenance, unit_blocked.
  frames_with same_peers_leaf.
Qed.
#[local] Hint Resolve microcloud_reload_same_peers : frames.

Lemma snap_sideload_same_peers env : frames same_peers (snap_sideload_microcloud env).
Proof.
  unfold snap_sideload_microcloud, os_path_getsize, ensure, stored_config_getitem,
    record_effect, on_command_error, unit_blocked.
  frames_with same_peers_leaf.
Qed.
#[local] Hint Resolve snap_sideload_same_peers : frames.

Lemma snap_sideload_binary_same_peers env :
  frames same_peers (snap_sideload_microcloud_binary env).
Proof.
  unfold snap_sideload_microcloud_binary, os_path_getsize, record_effect.
  frames_with same_peers_leaf.
Qed.
#[local] Hint Resolve snap_sideload_binary_same_peers : frames.

Lemma resource_sideload_same_peers env : frames same_peers (resource_sideload env).
Proof.
  unfold resource_sideload, sideload_resource, record_effect.
  frames_with same_peers_leaf.
Qed.
#[local] Hint Resolve resource_sideload_same_peers : frames.

Lemma install_same_peers env : frames same_peers (_on_charm_install env).
Proof.
  unfold _on_charm_install, install_microcloud, config_is_valid, event_defer.
  frames_with same_peers_leaf.
Qed.

(** ** Commands *)

Lemma subprocess_run_world env argv capture check timeout w :
  (subprocess_run env argv capture check timeout w).2 = with_issued (issued w ++ [argv]) w.
Proof.
  unfold subprocess_run, bind, modify. simpl.
  destruct (proc env argv); [|done].
  destruct timeout; repeat case_match; done.
Qed.

Lemma subprocess_run_checked env argv capture t w :
  match fate_of env argv t with
  | Done => ∃ cp, (subprocess_run env argv capture true (Some t) w).1 = Ok cp
  | Failed => ∃ rc err,
      (subprocess_run env argv capture true (Some t) w).1
      = Raise (CalledProcessError argv rc err)
  | TimedOut => (subprocess_run env argv capture true (Some t) w).1 = Raise (TimeoutExpired argv)
  | NotStarted =>
      (subprocess_run env argv capture true (Some t) w).1 = Raise (FileNotFoundError argv)
  end.
Proof.
  unfold fate_of, subprocess_run, bind, modify. simpl.
  destruct (proc env argv) as [rc out err d|]; [|done].
  destruct (t <? d); [done|].
  destruct (rc =? 0); simpl; eauto.
Qed.

(** A checked command either returns, with the call recorded, or raises. *)
Lemma subprocess_run_cases env argv capture t w :
  let w' := with_issued (issued w ++ [argv]) w in
  match fate_of env argv t with
  | Done => ∃ cp, subprocess_run env argv capture true (Some t) w = (Ok cp, w')
  | Failed => ∃ rc err,
      subprocess_run env argv capture true (Some t) w
      = (Raise (CalledProcessError argv rc err), w')
  | TimedOut => subprocess_run env argv capture true (Some t) w = (Raise (TimeoutExpired argv), w')
  | NotStarted =>
      subprocess_run env argv capture true (Some t) w = (Raise (FileNotFoundError argv), w')
  end.
Proof.
  intros w'. pose proof (subprocess_run_checked env argv capture t w) as H.
  pose proof (subprocess_run_world env argv capture true (Some t) w) as Hw.
  destruct (subprocess_run env argv capture true (Some t) w) as [res w1].
  simpl in *. subst w1. destruct (fate_of env argv t).
  - destruct H as [cp ->]. eauto.
  - destruct H as (rc & err & ->). eauto.
  - by rewrite H.
  - by rewrite H.
Qed.

(** ** The peer flags *)

Lemma units_known env r u : u ∈ units r → ∃ d, data_getitem env r u = Ok d.
Proof.
  unfold units, data_getitem. intros Hu.
  case_decide; [eauto|].
  apply list_elem_of_fmap in Hu as ([u' d] & -> & Hin).
  apply elem_of_map_to_list in Hin. simpl. rewrite Hin. eauto.
Qed.

Lemma peer_flag_is_run env r u flag :
  (∃ d, data_getitem env r u = Ok d) →
  peer_flag_is env r u flag = Ok (bool_decide (peer_flag env r u = Some (PStr flag))).
Proof. intros [d Hd]. unfold peer_flag_is, peer_flag. by rewrite Hd. Qed.

Lemma one_unit_clustered_run env r us :
  Forall (fun u => ∃ d, data_getitem env r u = Ok d) us →
  one_unit_clustered env r us
  = Ok (existsb (fun u => bool_decide (peer_flag env r u = Some (PStr "True"))) us).
Proof.
  induction 1 as [|u us Hu _ IH]; simpl; [done|].
  rewrite (peer_flag_is_run _ _ _ _ Hu). by case_bool_decide.
Qed.

Lemma new_peers_run env r us :
  Forall (fun u => ∃ d, data_getitem env r u = Ok d) us →
  new_peers env r us
  = Ok ((fun u => bool_decide (peer_flag env r u = Some (PStr "False"))) <$> us).
Proof.
  induction 1 as [|u us Hu _ IH]; simpl; [done|].
  by rewrite (peer_flag_is_run _ _ _ _ Hu), IH.
Qed.

Lemma units_all_known env r :
  Forall (fun u => ∃ d, data_getitem env r u = Ok d) (units r).
Proof. apply Forall_forall. intros u Hu. by apply units_known. Qed.

Lemma forallb_id_fmap {A} (f : A → bool) l : forallb id (f <$> l) = forallb f l.
Proof. induction l as [|x l IH]; simpl; [done|]. f_equal. exact IH. Qed.

Lemma own_read env w r :
  peers w = Some r →
  get_peer_data_str env (Some (unit_name env)) "clustered" w
  = (Ok match own_data r !! "clustered" with Some (PStr s) => s | _ => "" end, w).
Proof.
  intros Hp. unfold get_peer_data_str, bind, get, lift, ret, data_getitem. rewrite Hp.
  rewrite decide_False by done. rewrite decide_True by done.
  by destruct (own_data r !! "clustered") as [[]|].
Qed.

Lemma should_initialize_quorum env r :
  should_initialize env r = true ↔ quorum_ready env r.
Proof.
  unfold should_initialize, quorum_ready.
  rewrite !andb_true_iff, !bool_decide_eq_true, forallb_forall, Z.eqb_eq, Forall_forall.
  split.
  - intros [[[Hl Ho] Hall] Hn]. repeat split; try done.
    intros u Hu. apply list_elem_of_In in Hu. specialize (Hall u Hu).
    by apply bool_decide_eq_true in Hall.
  - intros (Hl & Ho & Hall & Hn). repeat split; try done.
    intros u Hu. apply bool_decide_eq_true, Hall. by apply list_elem_of_In.
Qed.

Lemma one_peer_clustered_false env r :
  one_peer_clustered env r = false ↔ no_peer_clustered env r.
Proof.
  unfold one_peer_clustered, no_peer_clustered. rewrite Forall_forall. split.
  - intros He u Hu Ht. apply not_true_iff_false in He. apply He.
    apply existsb_exists. exists u. split; [by apply list_elem_of_In|].
    by apply bool_decide_eq_true.
  - intros H. apply not_true_iff_false. intros He.
    apply existsb_exists in He as (u & Hu & Ht).
    apply bool_decide_eq_true in Ht. apply list_elem_of_In in Hu. by apply (H u).
Qed.

Lemma quorum_no_peer_clustered env r :
  should_initialize env r = true → one_peer_clustered env r = false.
Proof.
  intros H. apply should_initialize_quorum in H as (_ & _ & H & _).
  apply one_peer_clustered_false. unfold no_peer_clustered.
  eapply Forall_impl; [exact H|]. simpl. intros u ->. done.
Qed.

Lemma bind_lift_ok {A B} (a : A) (k : A → M B) w : bind (lift (Ok a)) k w = k a w.
Proof. reflexivity. Qed.

Lemma the_peers_run w r : peers w = Some r → the_peers w = (Ok r, w).
Proof. intros Hp. unfold the_peers, bind, get, ret. by rewrite Hp. Qed.

(** The start handler after the configuration step, branch by branch. *)
Lemma bootstrap_run env w r :
  peers w = Some r →
  bootstrap env w =
    if one_peer_clustered env r then check_clustered env w
    else if should_initialize env r then initialize env w
    else wait_for_units env w.
Proof.
  intros Hp. unfold bootstrap.
  rewrite (bind_ok _ _ _ _ _ (the_peers_run w r Hp)).
  rewrite (one_unit_clustered_run env r _ (units_all_known env r)).
  fold (one_peer_clustered env r).
  rewrite bind_lift_ok.
  destruct (one_peer_clustered env r); [done|].
  rewrite (new_peers_run env r _ (units_all_known env r)).
  rewrite bind_lift_ok, forallb_id_fmap. unfold should_initialize.
  destruct (is_leader env); simpl.
  - rewrite (bind_ok _ _ _ _ _ (own_read env w r Hp)).
    assert (bool_decide (match own_data r !! "clustered" with
                         | Some (PStr s) => s | _ => "" end = "False")
            = bool_decide (own_data r !! "clustered" = Some (PStr "False"))) as ->.
    { apply bool_decide_ext. destruct (own_data r !! "clustered") as [[]|]; naive_solver. }
    by destruct (_ && _ && _).
  - done.
Qed.

Lemma bootstrap_no_relation env w :
  peers w = None → bootstrap env w = (Raise AttributeError, w).
Proof. intros Hp. unfold bootstrap, the_peers, bind, get, raise. by rewrite Hp. Qed.

(** ** Running the operations *)

Lemma subprocess_run_eq env argv capture t w :
  subprocess_run env argv capture true (Some t) w
  = (checked_result env argv capture t, with_issued (issued w ++ [argv]) w).
Proof.
  unfold subprocess_run, checked_result, bind, modify, raise, ret. simpl.
  destruct (proc env argv) as [rc out err d|]; [|done].
  destruct (t <? d); [done|]. by destruct (rc =? 0).
Qed.

Lemma checked_result_fate env argv capture t :
  match fate_of env argv t with
  | Done => ∃ cp, checked_result env argv capture t = Ok cp
  | Failed => ∃ rc err, checked_result env argv capture t = Raise (CalledProcessError argv rc err)
  | TimedOut => checked_result env argv capture t = Raise (TimeoutExpired argv)
  | NotStarted => checked_result env argv capture t = Raise (FileNotFoundError argv)
  end.
Proof.
  unfold fate_of, checked_result.
  destruct (proc env argv) as [rc out err d|]; [|done].
  destruct (t <? d); [done|]. destruct (rc =? 0); eauto.
Qed.

Lemma fate_failed env argv capture t :
  fate_of env argv t = Failed →
  ∃ rc err, checked_result env argv capture t = Raise (CalledProcessError argv rc err).
Proof. intros H. pose proof (checked_result_fate env argv capture t) as Hc. by rewrite H in Hc. Qed.

Lemma fate_timed_out env argv capture t :
  fate_of env argv t = TimedOut →
  checked_result env argv capture t = Raise (TimeoutExpired argv).
Proof. intros H. pose proof (checked_result_fate env argv capture t) as Hc. by rewrite H in Hc. Qed.


Lemma fate_not_started env argv capture t :
  fate_of env argv t = NotStarted →
  checked_result env argv capture t = Raise (FileNotFoundError argv).
Proof. intros H. pose proof (checked_result_fate env argv capture t) as Hc. by rewrite H in Hc. Qed.

Ltac fate_cases env argv capture t :=
  let H := fresh "Hres" in
  pose proof (checked_result_fate env argv capture t) as H;
  destruct (fate_of env argv t) eqn:?;
  [ destruct H as [? H] | destruct H as (? & ? & H) | | ];
  rewrite H; clear H.

Ltac mrun :=
  repeat (rewrite ?subprocess_run_eq;
          unfold bind, try_except, ret, raise, get, modify, lift, when,
            on_command_error, unit_active, unit_blocked, unit_maintenance,
            unit_waiting, event_defer, time_sleep;
          simpl).

Lemma set_own_run env w r key value :
  peers w = Some r → key ≠ "" → value ≠ "" →
  set_peer_data_str env (Some (unit_name env)) key value w
  = (Ok tt, with_peers (Some (mkRelation (<[key := PStr value]> (own_data r)) (peer_data r))) w).
Proof.
  intros Hp Hk Hv. unfold set_peer_data_str.
  unfold bind at 1, get at 1. rewrite Hp.
  rewrite decide_False by done.
  assert (get_peer_data_str env (Some (unit_name env)) key w
          = (Ok match own_data r !! key with Some (PStr s) => s | _ => "" end, w)) as Hget.
  { unfold get_peer_data_str, bind, get, lift, ret, data_getitem. rewrite Hp.
    rewrite decide_False by done. rewrite decide_True by done.
    by destruct (own_data r !! key) as [[]|]. }
  rewrite (bind_ok _ _ _ _ _ Hget).
  case_decide as Heq.
  - destruct (own_data r !! key) as [[s| | |]|] eqn:Hs; try done.
    subst s. rewrite insert_id by done.
    destruct r; simpl. by rewrite <- Hp, with_peers_same.
  - unfold bind, get, lift, modify, data_setitem, data_getitem. rewrite Hp.
    by rewrite !decide_True by done.
Qed.

Lemma mark_own_clustered env w r :
  peers w = Some r →
  set_peer_data_str env (Some (unit_name env)) "clustered" "True" w
  = (Ok tt, with_peers (Some (mark_clustered r)) w).
Proof. intros Hp. by apply set_own_run. Qed.

Lemma microcloud_init_run env w :
  peers (microcloud_init env w).2 = peers w
  ∧ deferred (microcloud_init env w).2 = deferred w
  ∧ issued (microcloud_init env w).2 =
      match fate_of env microcloud_init_argv 600 with
      | Done => issued w ++ [microcloud_init_argv; microceph_enable_rgw_argv]
      | _ => issued w ++ [microcloud_init_argv]
      end
  ∧ match init_fate env with
    | Done => (microcloud_init env w).1 = Ok tt
              ∧ unit_status (microcloud_init env w).2
                = MaintenanceStatus (Lit "Initializing MicroCloud")
    | Failed | TimedOut => (microcloud_init env w).1 = Raise RuntimeError
              ∧ is_blocked (unit_status (microcloud_init env w).2) = true
    | NotStarted => ∃ c, (microcloud_init env w).1 = Raise (FileNotFoundError c)
    end.
Proof.
  unfold microcloud_init, init_fate. mrun.
  fate_cases env microcloud_init_argv true 600; mrun;
    [fate_cases env microceph_enable_rgw_argv false 600; mrun|..];
    rewrite <- ?app_assoc; eauto 10.
Qed.

Lemma check_clustered_run env w r :
  peers w = Some r →
  issued (check_clustered env w).2 = issued w ++ [lxc_cluster_list]
  ∧ match fate_of env lxc_cluster_list 600 with
    | Done =>
        (check_clustered env w).1 = Ok tt
        ∧ unit_status (check_clustered env w).2 = ActiveStatus
        ∧ peers (check_clustered env w).2 = Some (mark_clustered r)
        ∧ deferred (check_clustered env w).2 = deferred w
    | Failed =>
        (check_clustered env w).1 = Ok tt
        ∧ is_waiting (unit_status (check_clustered env w).2) = true
        ∧ peers (check_clustered env w).2 = peers w
        ∧ deferred (check_clustered env w).2 = true
    | TimedOut =>
        (check_clustered env w).1 = Ok tt
        ∧ is_blocked (unit_status (check_clustered env w).2) = true
        ∧ peers (check_clustered env w).2 = peers w
        ∧ deferred (check_clustered env w).2 = deferred w
    | NotStarted =>
        (check_clustered env w).1 = Raise (FileNotFoundError lxc_cluster_list)
        ∧ unit_status (check_clustered env w).2 = unit_status w
        ∧ peers (check_clustered env w).2 = peers w
        ∧ deferred (check_clustered env w).2 = deferred w
    end.
Proof.
  intros Hp. unfold check_clustered. mrun.
  fate_cases env lxc_cluster_list false 600; mrun;
    rewrite ?(mark_own_clustered env (with_issued _ w) r Hp); done.
Qed.

Lemma update_status_run env w :
  issued (_on_update_status env w).2 = issued w ++ [lxc_cluster_list]
  ∧ deferred (_on_update_status env w).2 = deferred w
  ∧ match fate_of env lxc_cluster_list 600 with
    | Done =>
        (_on_update_status env w).1 = Ok tt
        ∧ unit_status (_on_update_status env w).2 = ActiveStatus
        ∧ peers (_on_update_status env w).2 = mark_clustered <$> peers w
    | Failed | TimedOut =>
        (_on_update_status env w).1 = Ok tt
        ∧ is_blocked (unit_status (_on_update_status env w).2) = true
        ∧ peers (_on_update_status env w).2 = peers w
    | NotStarted =>
        (_on_update_status env w).1 = Raise (FileNotFoundError lxc_cluster_list)
        ∧ unit_status (_on_update_status env w).2 = unit_status w
        ∧ peers (_on_update_status env w).2 = peers w
    end.
Proof.
  unfold _on_update_status. mrun.
  fate_cases env lxc_cluster_list false 600; mrun; try done.
  destruct (peers w) as [r|] eqn:Hp.
  - by rewrite (mark_own_clustered env (with_issued _ w) r Hp).
  - unfold set_peer_data_str. mrun. by rewrite Hp.
Qed.

Lemma initialize_run env w r :
  peers w = Some r →
  deferred (initialize env w).2 = deferred w
  ∧ issued (initialize env w).2 =
      match fate_of env microcloud_init_argv 600 with
      | Done => issued w ++ [microcloud_init_argv; microceph_enable_rgw_argv]
      | _ => issued w ++ [microcloud_init_argv]
      end
  ∧ match init_fate env with
    | Done =>
        (initialize env w).1 = Ok tt
        ∧ unit_status (initialize env w).2 = ActiveStatus
        ∧ peers (initialize env w).2 = Some (mark_clustered r)
    | Failed | TimedOut =>
        (initialize env w).1 = Ok tt
        ∧ unit_status (initialize env w).2
          = BlockedStatus (Lit "Failed to initialize MicroCloud")
        ∧ peers (initialize env w).2 = peers w
    | NotStarted =>
        (∃ c, (initialize env w).1 = Raise (FileNotFoundError c))
        ∧ peers (initialize env w).2 = peers w
    end.
Proof.
  intros Hp. destruct (microcloud_init_run env w) as (Hpeers & Hdef & Hiss & Hfate).
  unfold initialize, try_except, bind. cbv beta.
  destruct (microcloud_init env w) as [[[]|e] w1] eqn:Hinit; simpl in Hpeers, Hdef, Hiss, Hfate.
  - rewrite Hp in Hpeers. rewrite (mark_own_clustered env w1 r Hpeers). mrun.
    destruct (init_fate env).
    + done.
    + by destruct Hfate as [[=] _].
    + by destruct Hfate as [[=] _].
    + by destruct Hfate as [c [=]].
  - destruct (init_fate env).
    + by destruct Hfate as [[=] _].
    + destruct Hfate as [[= ->] _]. by mrun.
    + destruct Hfate as [[= ->] _]. by mrun.
    + destruct Hfate as [c [= ->]]. simpl. eauto.
Qed.

Lemma wait_for_units_run env w :
  (wait_for_units env w).1 = Ok tt
  ∧ is_waiting (unit_status (wait_for_units env w).2) = true
  ∧ deferred (wait_for_units env w).2 = true
  ∧ issued (wait_for_units env w).2 = issued w
  ∧ peers (wait_for_units env w).2 = peers w.
Proof. unfold wait_for_units. mrun. by destruct (is_leader env). Qed.

(** ** The configuration step of the start handler *)

Ltac issues_leaf :=
  first
    [ by (exists []; split; [by rewrite app_nil_r|constructor])
    | by (eexists [_]; split;
          [reflexivity|repeat constructor; unfold config_commands;
                       rewrite !elem_of_cons; auto]) ].

Lemma snap_install_issues env :
  frames (issues_only (.∈ config_commands)) (snap_install_microcloud env).
Proof.
  unfold snap_install_microcloud, ensure_if_absent, ensure, config_getitem,
    stored_config_setitem, record_effect, unit_blocked.
  frames_go issues_leaf.
Qed.

Lemma apply_pending_config_issues env :
  frames (issues_only (.∈ config_commands)) (apply_pending_config env).
Proof.
  pose proof (snap_install_issues env).
  unfold apply_pending_config, _on_charm_config_changed, apply_changed_config,
    config_is_valid, config_changed, unit_blocked, event_defer.
  frames_go issues_leaf.
Qed.

Lemma apply_pending_config_unchanged env w :
  (config_changed env w).1 = Ok ∅ → apply_pending_config env w = (Ok tt, w).
Proof.
  unfold apply_pending_config, config_changed, bind, get, ret. simpl.
  intros [= ->]. by rewrite bool_decide_true.
Qed.

(** The start handler is the configuration step followed by [bootstrap]:
    either the former raises, or the latter runs on a world with the same
    relation, in which only configuration commands have been issued. *)
Lemma start_run env w :
  ∃ res1 w1,
    apply_pending_config env (fresh w) = (res1, w1)
    ∧ peers w1 = peers w
    ∧ Forall (.∈ config_commands) (issued w1)
    ∧ evaluate env StartEvent w =
        match res1 with
        | Ok _ => bootstrap env w1
        | Raise e => (Raise e, w1)
        end.
Proof.
  pose proof (apply_pending_config_same_peers env (fresh w)) as Hp.
  pose proof (apply_pending_config_issues env (fresh w)) as (l & Hl & HP).
  unfold evaluate, dispatch, _on_charm_start, bind.
  destruct (apply_pending_config env (fresh w)) as [res1 w1]; simpl in *.
  exists res1, w1. split; [done|]. split; [done|]. split; [by rewrite Hl|].
  by destruct res1.
Qed.

Lemma not_config_command (argv : list string) l :
  Forall (.∈ config_commands) l → argv ∉ config_commands → argv ∉ l.
Proof. intros Hl Hn Hin. by apply Hn, (proj1 (Forall_forall _ _) Hl). Qed.

Lemma init_not_config : microcloud_init_argv ∉ config_commands.
Proof. unfold config_commands. rewrite !elem_of_cons, elem_of_nil. by intros [|[|]]. Qed.

Lemma probe_not_config : lxc_cluster_list ∉ config_commands.
Proof. unfold config_commands. rewrite !elem_of_cons, elem_of_nil. by intros [|[|]]. Qed.

(** ** C1: when the start trigger initializes *)

Lemma init_issued_iff (l : list (list string)) :
  Forall (.∈ config_commands) l →
  ∀ tail, microcloud_init_argv ∈ l ++ tail ↔ microcloud_init_argv ∈ tail.
Proof.
  intros Hl tail. rewrite elem_of_app. split; [|auto].
  intros [Hin|]; [|done]. by destruct (not_config_command _ _ Hl init_not_config).
Qed.

(** C1 (amended). On every evaluation of the start trigger the
    initialization command is issued only if the unit is leader, its own
    flag is "False", every known peer's flag is "False" and the known peers
    plus one make the planned unit count.  When the four conditions do not
    hold, no known peer's flag is "True" and the handler returns, the unit
    reports a waiting status, defers the event and issues no initialization
    command. *)
Theorem start_initializes_only_at_quorum env w :
  (microcloud_init_argv ∈ issued (evaluate env StartEvent w).2 →
   ∃ r, peers w = Some r ∧ quorum_ready env r)
  ∧ (∀ r, peers w = Some r → ¬ quorum_ready env r → no_peer_clustered env r →
     (evaluate env StartEvent w).1 = Ok tt →
     is_waiting (unit_status (evaluate env StartEvent w).2) = true
     ∧ deferred (evaluate env StartEvent w).2 = true
     ∧ microcloud_init_argv ∉ issued (evaluate env StartEvent w).2).
Proof.
  destruct (start_run env w) as (res1 & w1 & Hcfg & Hp1 & Hl & ->).
  assert (Hissued : microcloud_init_argv ∈
            issued (match res1 with
                    | Ok _ => bootstrap env w1
                    | Raise e => (Raise e, w1)
                    end).2 → ∃ r, peers w = Some r ∧ quorum_ready env r).
  { destruct res1 as [[]|e]; simpl.
    - destruct (peers w) as [r|] eqn:Hp.
      + rewrite (bootstrap_run env w1 r Hp1).
        destruct (one_peer_clustered env r).
        * destruct (check_clustered_run env w1 r Hp1) as [-> _].
          rewrite (init_issued_iff _ Hl), list_elem_of_singleton. done.
        * destruct (should_initialize env r) eqn:Hs.
          -- intros _. exists r. split; [done|]. by apply should_initialize_quorum.
          -- destruct (wait_for_units_run env w1) as (_ & _ & _ & -> & _).
             intros Hin. by destruct (not_config_command _ _ Hl init_not_config).
      + rewrite (bootstrap_no_relation env w1 Hp1). simpl.
        intros Hin. by destruct (not_config_command _ _ Hl init_not_config).
    - intros Hin. by destruct (not_config_command _ _ Hl init_not_config). }
  split; [exact Hissued|].
  intros r Hp Hn Hnone. apply one_peer_clustered_false in Hnone.
  assert (Hnot : microcloud_init_argv ∉
            issued (match res1 with
                    | Ok _ => bootstrap env w1
                    | Raise e => (Raise e, w1)
                    end).2).
  { intros Hin. destruct (Hissued Hin) as (r' & Hr' & Hq). congruence. }
  rewrite Hp in Hp1.
  destruct res1 as [[]|e]; simpl in *; [|done].
  revert Hnot. rewrite (bootstrap_run env w1 r Hp1), Hnone.
  destruct (should_initialize env r) eqn:Hs.
  - by apply should_initialize_quorum in Hs.
  - intros Hnot _. by destruct (wait_for_units_run env w1) as (_ & -> & -> & _).
Qed.

(** ** C2: a successful health probe *)

Lemma own_flag_marked r w :
  peers w = Some (mark_clustered r) → own_flag w = Some (PStr "True").
Proof. intros Hp. unfold own_flag. rewrite Hp. apply lookup_insert_eq. Qed.

Lemma probe_issued_iff (l : list (list string)) :
  Forall (.∈ config_commands) l →
  ∀ tail, lxc_cluster_list ∈ l ++ tail ↔ lxc_cluster_list ∈ tail.
Proof.
  intros Hl tail. rewrite elem_of_app. split; [|auto].
  intros [Hin|]; [|done]. by destruct (not_config_command _ _ Hl probe_not_config).
Qed.

Lemma start_with_clustered_peer env w r :
  peers w = Some r →
  one_peer_clustered env r = true →
  (apply_pending_config env (fresh w)).1 = Ok tt →
  ∃ w1, peers w1 = Some r
        ∧ Forall (.∈ config_commands) (issued w1)
        ∧ evaluate env StartEvent w = check_clustered env w1.
Proof.
  intros Hp Hone Hcfg.
  destruct (start_run env w) as (res1 & w1 & Hrun & Hp1 & Hl & ->).
  rewrite Hrun in Hcfg. simpl in Hcfg. subst res1. rewrite Hp in Hp1.
  exists w1. by rewrite (bootstrap_run env w1 r Hp1), Hone.
Qed.

Lemma start_without_clustered_peer env w r :
  peers w = Some r →
  one_peer_clustered env r = false →
  (lxc_cluster_list ∉ issued (evaluate env StartEvent w).2)
  ∧ (should_initialize env r = false →
     peers (evaluate env StartEvent w).2 = peers w
     ∧ ((evaluate env StartEvent w).1 = Ok tt →
        is_waiting (unit_status (evaluate env StartEvent w).2) = true)).
Proof.
  intros Hp Hone.
  destruct (start_run env w) as (res1 & w1 & Hrun & Hp1 & Hl & ->).
  pose proof (not_config_command _ _ Hl probe_not_config) as Hnp.
  destruct res1 as [[]|e]; simpl; [|done].
  rewrite Hp in Hp1.
  rewrite (bootstrap_run env w1 r Hp1), Hone.
  destruct (should_initialize env r).
  - split; [|done]. destruct (initialize_run env w1 r Hp1) as (_ & -> & _).
    intros Hin.
    destruct (fate_of env microcloud_init_argv 600);
      rewrite (probe_issued_iff _ Hl) in Hin;
      rewrite ?elem_of_cons, elem_of_nil in Hin; intuition discriminate.
  - destruct (wait_for_units_run env w1) as (_ & Hwait & _ & Hiss & Hpeers).
    rewrite Hiss, Hpeers. split; [done|]. intros _. by rewrite Hp.
Qed.

(** C2. When the relation exists and the cluster listing command succeeds
    (exit code 0 within the timeout): the update-status handler always runs
    it, returns, and leaves the unit's own [clustered] entry at "True"
    whatever it was before (the rest of the relation untouched) with the
    status Active.  The start handler does the same when some peer's flag
    reads "True" and the pending configuration step has returned; with no
    such peer it does not run the probe at all, and unless the unit is the
    leader at quorum (which initializes) it leaves the relation as it was and,
    when it returns, ends Waiting. *)
Theorem probe_success_marks_clustered env w r :
  peers w = Some r →
  fate_of env lxc_cluster_list 600 = Done →
  ((evaluate env UpdateStatusEvent w).1 = Ok tt
   ∧ unit_status (evaluate env UpdateStatusEvent w).2 = ActiveStatus
   ∧ peers (evaluate env UpdateStatusEvent w).2 = Some (mark_clustered r)
   ∧ own_flag (evaluate env UpdateStatusEvent w).2 = Some (PStr "True")
   ∧ issued (evaluate env UpdateStatusEvent w).2 = [lxc_cluster_list])
  ∧ (one_peer_clustered env r = true →
     (apply_pending_config env (fresh w)).1 = Ok tt →
     (evaluate env StartEvent w).1 = Ok tt
     ∧ unit_status (evaluate env StartEvent w).2 = ActiveStatus
     ∧ peers (evaluate env StartEvent w).2 = Some (mark_clustered r)
     ∧ own_flag (evaluate env StartEvent w).2 = Some (PStr "True")
     ∧ lxc_cluster_list ∈ issued (evaluate env StartEvent w).2
     ∧ microcloud_init_argv ∉ issued (evaluate env StartEvent w).2)
  ∧ (one_peer_clustered env r = false →
     (lxc_cluster_list ∉ issued (evaluate env StartEvent w).2)
     ∧ (should_initialize env r = false →
        peers (evaluate env StartEvent w).2 = peers w
        ∧ ((evaluate env StartEvent w).1 = Ok tt →
           is_waiting (unit_status (evaluate env StartEvent w).2) = true))).
Proof.
  intros Hp Hdone. split; [|split].
  - destruct (update_status_run env (fresh w)) as (Hiss & _ & Hrun).
    rewrite Hdone in Hrun. destruct Hrun as (Hok & Hst & Hpeers).
    change (peers (fresh w)) with (peers w) in Hpeers. rewrite Hp in Hpeers.
    unfold evaluate, dispatch. repeat split; try done.
    by apply (own_flag_marked r).
  - intros Hone Hcfg.
    destruct (start_with_clustered_peer env w r Hp Hone Hcfg) as (w1 & Hp1 & Hl & ->).
    destruct (check_clustered_run env w1 r Hp1) as [Hiss Hrun].
    rewrite Hdone in Hrun. destruct Hrun as (Hok & Hst & Hmark & _).
    rewrite Hiss. repeat split; try done.
    + by apply (own_flag_marked r).
    + rewrite elem_of_app, list_elem_of_singleton. by right.
    + rewrite (init_issued_iff _ Hl), list_elem_of_singleton. done.
  - intros Hone. by apply start_without_clustered_peer.
Qed.

(** ** C6: a failed initialization *)

(** C6 (amended). When the start handler attempts the initialization and
    the command fails (non-zero exit or timeout, of [microcloud init] or of
    the [microceph enable rgw] that follows it), the handler returns with the
    relation untouched (the unit's own flag still reads "False"), the status
    is Blocked, and the failure path does not defer the event: the event is
    deferred exactly when the configuration step that opened the same
    evaluation deferred it, so not at all when no configuration change was
    pending. *)
Theorem failed_initialization_blocks env w :
  microcloud_init_argv ∈ issued (evaluate env StartEvent w).2 →
  init_fate env = Failed ∨ init_fate env = TimedOut →
  (evaluate env StartEvent w).1 = Ok tt
  ∧ unit_status (evaluate env StartEvent w).2
    = BlockedStatus (Lit "Failed to initialize MicroCloud")
  ∧ peers (evaluate env StartEvent w).2 = peers w
  ∧ own_flag (evaluate env StartEvent w).2 = Some (PStr "False")
  ∧ deferred (evaluate env StartEvent w).2
    = deferred (apply_pending_config env (fresh w)).2
  ∧ ((config_changed env (fresh w)).1 = Ok ∅ →
     deferred (evaluate env StartEvent w).2 = false).
Proof.
  intros Hin Hfail.
  destruct (start_run env w) as (res1 & w1 & Hcfg & Hp1 & Hl & Heq).
  rewrite Heq in *. clear Heq. rewrite Hcfg. simpl.
  assert (Hunch : (config_changed env (fresh w)).1 = Ok ∅ → deferred w1 = false).
  { intros H. rewrite (apply_pending_config_unchanged env _ H) in Hcfg.
    by injection Hcfg as _ <-. }
  destruct res1 as [[]|e]; simpl in *;
    [|by destruct (not_config_command _ _ Hl init_not_config)].
  destruct (peers w) as [r|] eqn:Hp.
  2:{ rewrite (bootstrap_no_relation env w1 Hp1) in Hin.
      by destruct (not_config_command _ _ Hl init_not_config). }
  revert Hin. rewrite (bootstrap_run env w1 r Hp1).
  destruct (one_peer_clustered env r).
  { destruct (check_clustered_run env w1 r Hp1) as [-> _].
    rewrite (init_issued_iff _ Hl), list_elem_of_singleton. done. }
  destruct (should_initialize env r) eqn:Hs.
  2:{ destruct (wait_for_units_run env w1) as (_ & _ & _ & -> & _).
      intros Hin. by destruct (not_config_command _ _ Hl init_not_config). }
  intros _. apply should_initialize_quorum in Hs as (_ & Hown & _).
  destruct (initialize_run env w1 r Hp1) as (Hdef & _ & Hrun).
  assert (Hblocked : (initialize env w1).1 = Ok tt
                     ∧ unit_status (initialize env w1).2
                       = BlockedStatus (Lit "Failed to initialize MicroCloud")
                     ∧ peers (initialize env w1).2 = peers w1).
  { by destruct Hfail as [Hf|Hf]; rewrite Hf in Hrun. }
  destruct Hblocked as (-> & -> & Hpeers).
  unfold own_flag. rewrite Hpeers, Hp1, Hdef. by repeat split.
Qed.

(** ** C7: adding a member *)

Lemma microcloud_add_issued env w :
  issued (microcloud_add env w).2 = issued w ++ [microcloud_add_argv].
Proof.
  unfold microcloud_add. mrun.
  fate_cases env microcloud_add_argv true 600; by mrun.
Qed.

Lemma own_read_flag env w :
  get_peer_data_str env (Some (unit_name env)) "clustered" w
  = (Ok match own_flag w with Some (PStr s) => s | _ => "" end, w).
Proof.
  unfold own_flag. destruct (peers w) as [r|] eqn:Hp.
  - by rewrite (own_read env w r Hp).
  - unfold get_peer_data_str, bind, get, ret. by rewrite Hp.
Qed.

(** C7. On a relation-joined trigger the add-member command is run exactly
    when the evaluating unit is leader, its own [clustered] flag reads
    "True", and the joining unit is not the evaluating unit itself; a
    non-leader issues no command at all. *)
Theorem add_member_only_by_clustered_leader env unit w :
  (microcloud_add_argv ∈ issued (evaluate env (RelationJoinedEvent unit) w).2
   ↔ is_leader env = true
     ∧ own_flag w = Some (PStr "True")
     ∧ unit ≠ Some (unit_name env))
  ∧ (is_leader env = false →
     issued (evaluate env (RelationJoinedEvent unit) w).2 = []).
Proof.
  unfold evaluate, dispatch, _on_cluster_relation_joined.
  destruct (is_leader env); simpl.
  - rewrite (bind_ok _ _ _ _ _ (own_read_flag env (fresh w))).
    change (own_flag (fresh w)) with (own_flag w).
    split; [|done].
    case_bool_decide as Hown; case_bool_decide as Hunit; simpl.
    + unfold try_except.
      pose proof (microcloud_add_issued env (fresh w)) as Hiss.
      destruct (microcloud_add env (fresh w)) as [[[]|e] w1]; simpl in *.
      * rewrite Hiss, list_elem_of_singleton.
        destruct (own_flag w) as [[]|]; naive_solver.
      * destruct e; simpl; rewrite Hiss, list_elem_of_singleton;
          destruct (own_flag w) as [[]|]; naive_solver.
    + rewrite elem_of_nil. naive_solver.
    + rewrite elem_of_nil. destruct (own_flag w) as [[]|]; naive_solver.
    + rewrite elem_of_nil. naive_solver.
  - split; [|done]. rewrite elem_of_nil. naive_solver.
Qed.

(** ** C3: the unit's own flag over time *)

#[local] Instance flag_rises_preorder : PreOrder flag_rises.
Proof.
  split; [by left|].
  intros a b c [H1|H1] [H2|H2]; unfold flag_rises; rewrite ?H2, ?H1; auto.
Qed.

Lemma frames_weaken (R R' : relation World) {A} (m : M A) :
  (∀ w w', R w w' → R' w w') → frames R m → frames R' m.
Proof. intros HR Hm w. apply HR, Hm. Qed.

Lemma same_peers_flag_rises w w' : same_peers w w' → flag_rises w w'.
Proof. intros H. left. unfold own_flag. by rewrite H. Qed.

Lemma frames_flag_of_peers {A} (m : M A) : frames same_peers m → frames flag_rises m.
Proof. apply frames_weaken, same_peers_flag_rises. Qed.

Ltac flag_leaf := by left.

Lemma mark_flag_rises env :
  frames flag_rises (set_peer_data_str env (Some (unit_name env)) "clustered" "True").
Proof.
  intros w. destruct (peers w) as [r|] eqn:Hp.
  - rewrite (mark_own_clustered env w r Hp). right. simpl.
    apply (own_flag_marked r). done.
  - left. unfold set_peer_data_str, bind, get, ret. by rewrite Hp.
Qed.

Lemma get_peer_data_str_flag env bag key : frames flag_rises (get_peer_data_str env bag key).
Proof. unfold get_peer_data_str. frames_go flag_leaf. Qed.

Lemma bootstrap_flag_rises env : frames flag_rises (bootstrap env).
Proof.
  pose proof (mark_flag_rises env).
  pose proof (frames_flag_of_peers _ (microcloud_init_same_peers env)).
  pose proof (get_peer_data_str_flag env (Some (unit_name env)) "clustered").
  unfold bootstrap, check_clustered, initialize, wait_for_units, the_peers,
    unit_active, unit_blocked, unit_waiting, event_defer, time_sleep.
  frames_go flag_leaf.
Qed.

Lemma handler_flag_rises env ev :
  ev ≠ RelationCreatedEvent → frames flag_rises (dispatch env ev).
Proof.
  intros Hev. destruct ev; simpl; try done.
  - apply frames_flag_of_peers, install_same_peers.
  - apply frames_flag_of_peers, config_changed_handler_same_peers.
  - unfold _on_charm_start. apply frames_bind; [apply _| |intros _].
    + apply frames_flag_of_peers, apply_pending_config_same_peers.
    + apply bootstrap_flag_rises.
  - pose proof (mark_flag_rises env).
    unfold _on_update_status, unit_active, unit_blocked. frames_go flag_leaf.
  - pose proof (frames_flag_of_peers _ (microcloud_remove_same_peers env (nodename env))).
    pose proof (get_peer_data_str_flag env (Some (unit_name env)) "clustered").
    unfold _on_charm_stop. frames_go flag_leaf.
  - pose proof (frames_flag_of_peers _ (microcloud_add_same_peers env)).
    pose proof (get_peer_data_str_flag env (Some (unit_name env)) "clustered").
    unfold _on_cluster_relation_joined. frames_go flag_leaf.
Qed.

Lemma run_step_flag_rises s w : not_relation_created s → flag_rises w (run_step s w).
Proof.
  destruct s as [env ev|remote]; simpl; intros Hs.
  - assert (ev ≠ RelationCreatedEvent) as Hev by (by intros ->).
    apply (handler_flag_rises env ev Hev (fresh w)).
  - left. unfold remote_update, own_flag. by destruct (peers w).
Qed.

(** The relation-created handler stores "False" whatever the flag was. *)
Lemma relation_created_run env w r :
  peers w = Some r →
  own_flag (evaluate env RelationCreatedEvent w).2 = Some (PStr "False").
Proof.
  intros Hp. unfold evaluate, dispatch, _on_cluster_relation_created.
  rewrite (set_own_run env (fresh w) r "clustered" "False") by done.
  unfold own_flag. simpl. apply lookup_insert_eq.
Qed.

(** C3 (amended). Over any sequence of handler executions and remote
    updates that contains no relation-created execution, the unit's own
    [clustered] entry ends as it started or as "True": no handler other than
    relation-created stores "False", and a "True" flag stays "True". The
    relation-created handler stores "False" whenever the relation exists,
    whatever the entry was before. *)
Theorem own_flag_only_rises steps w :
  Forall not_relation_created steps →
  (own_flag (run_steps steps w) = own_flag w
   ∨ own_flag (run_steps steps w) = Some (PStr "True"))
  ∧ (own_flag w = Some (PStr "True") → own_flag (run_steps steps w) = Some (PStr "True"))
  ∧ (∀ env r, peers w = Some r →
       own_flag (evaluate env RelationCreatedEvent w).2 = Some (PStr "False")).
Proof.
  intros Hsteps.
  assert (Hrise : flag_rises w (run_steps steps w)).
  { revert w. induction Hsteps as [|s steps Hs _ IH]; intros w; [reflexivity|].
    unfold run_steps. simpl. etrans; [by apply run_step_flag_rises|apply IH]. }
  split; [exact Hrise|]. split.
  - intros Ht. destruct Hrise as [H|H]; congruence.
  - intros env r. apply relation_created_run.
Qed.

(** ** The removal *)

(** The listing command is run without [check] and without a timeout: it
    returns whatever the process does, unless the process cannot start. *)
Lemma subprocess_run_unchecked env argv capture w :
  subprocess_run env argv capture false None w =
    (match proc env argv with
     | SpawnFailed => Raise (FileNotFoundError argv)
     | Exited rc out err _ =>
         Ok (mkCompleted rc (if capture then Some out else None)
               (if capture then Some err else None))
     end, with_issued (issued w ++ [argv]) w).
Proof.
  unfold subprocess_run, bind, modify, raise, ret. simpl.
  by destruct (proc env argv).
Qed.

Lemma json_eq_str_true v s : json_eq_str v s = true ↔ v = JStr s.
Proof.
  destruct v; simpl; try (split; [discriminate|discriminate]).
  rewrite bool_decide_eq_true. split; [by intros ->|by intros [= ->]].
Qed.

Lemma instances_loop_refuses insts node w :
  Forall has_location insts → Exists (located_at node) insts →
  instances_loop insts node w = (Ok true, with_status (BlockedStatus refusal) w).
Proof.
  intros Hall Hex. induction Hall as [|inst rest [loc Hloc] Hrest IH]; simpl.
  - by apply Exists_nil in Hex.
  - rewrite Hloc. rewrite bind_lift_ok.
    destruct (json_eq_str loc node) eqn:Heq; [done|].
    apply IH. apply Exists_cons in Hex as [Hhere|]; [|done].
    unfold located_at in Hhere. rewrite Hloc in Hhere. injection Hhere as ->.
    by rewrite (proj2 (json_eq_str_true _ _) eq_refl) in Heq.
Qed.


Lemma inspect_instances_inventory env node w rc out err d insts :
  proc env lxc_list_argv = Exited rc out err d →
  json_loads env out = Some (JArr insts) →
  inspect_instances env node w
  = instances_loop insts node (with_issued (issued w ++ [lxc_list_argv]) w).
Proof.
  intros Hproc Hjson. unfold inspect_instances.
  unfold bind at 1. rewrite subprocess_run_unchecked, Hproc. simpl.
  unfold json_loads_arg. rewrite Hjson. done.
Qed.

(** The two [except] clauses around the listing never fire. *)
Lemma safety_check_handlers_dead env node w :
  removal_safety_check env node w = inspect_instances env node w.
Proof.
  unfold removal_safety_check, try_except.
  destruct (inspect_instances env node w) as [[b|e] w1] eqn:Hrun; [done|].
  assert (He : (∀ c rc s, e ≠ CalledProcessError c rc s) ∧ (∀ c, e ≠ TimeoutExpired c)).
  { revert Hrun. unfold inspect_instances.
    unfold bind at 1. rewrite subprocess_run_unchecked.
    destruct (proc env lxc_list_argv) as [rc out err d|]; simpl.
    2:{ intros [= <- _]. done. }
    unfold json_loads_arg. destruct (json_loads env out) as [j|]; simpl.
    2:{ unfold bind, raise. intros [= <- _]. done. }
    unfold bind at 1, ret at 1.
    destruct (py_iter j) as [insts|e'] eqn:Hit.
    2:{ unfold bind, lift. intros [= <- _]. destruct j; simplify_eq/=; done. }
    rewrite bind_lift_ok. clear Hit.
    generalize (with_issued (issued w ++ [lxc_list_argv]) w).
    induction insts as [|inst rest IH]; simpl; intros w0; [done|].
    unfold bind, lift. destruct (py_getitem inst "location") as [loc|e'] eqn:Hloc.
    - destruct (json_eq_str loc node); [done|]. apply IH.
    - intros [= <- _]. unfold py_getitem in Hloc.
      destruct inst; simplify_eq/=; try done.
      destruct (assoc_lookup "location" kvs); simplify_eq/=; done. }
  destruct He as [Hc Ht]. destruct e; try done.
  - by destruct (Hc cmd returncode stderr).
  - by destruct (Ht cmd).
Qed.

(** ** C4: an occupied unit is not removed *)

(** C4. Whenever the workload listing yields a JSON array of instances,
    each carrying a location, and at least one of them is located at the
    node being removed, [microcloud_remove] returns with a Blocked status
    having issued the listing command only: none of the four removal commands
    is run, whatever the exit code of the listing, the stored configuration
    or the rest of the unit's state. *)
Theorem occupied_unit_is_not_removed env node w rc out err d insts :
  proc env lxc_list_argv = Exited rc out err d →
  json_loads env out = Some (JArr insts) →
  Forall has_location insts →
  Exists (located_at node) insts →
  microcloud_remove env node w
  = (Ok tt, with_status (BlockedStatus refusal)
              (with_issued (issued w ++ [lxc_list_argv]) w)).
Proof.
  intros Hproc Hjson Hall Hex. unfold microcloud_remove.
  assert (Hcheck : removal_safety_check env node w
                   = (Ok true, with_status (BlockedStatus refusal)
                                 (with_issued (issued w ++ [lxc_list_argv]) w))).
  { rewrite safety_check_handlers_dead.
    rewrite (inspect_instances_inventory env node w rc out err d insts Hproc Hjson).
    by apply instances_loop_refuses. }
  by rewrite (bind_ok _ _ _ _ _ Hcheck).
Qed.

(** ** C9: a failed listing *)

Lemma stop_run env w :
  own_flag w = Some (PStr "True") →
  evaluate env StopEvent w =
    try_except (microcloud_remove env (nodename env))
      (fun e => match e with RuntimeError => Some (ret tt) | _ => None end) (fresh w).
Proof.
  intros Hown. unfold evaluate, dispatch, _on_charm_stop.
  rewrite (bind_ok _ _ _ _ _ (own_read_flag env (fresh w))).
  change (own_flag (fresh w)) with (own_flag w). by rewrite Hown.
Qed.

(** C9. The listing command of the safety check is run with neither
    [check] nor a timeout: a failing listing (non-zero exit, nothing on
    standard output) still returns a completed process, and the two [except]
    clauses around it are dead code: the guarded block behaves as its body.
    The empty output then goes to the JSON parser, which rejects it; that
    exception is not a [RuntimeError], so the stop handler does not catch it:
    the evaluation ends with the parser's exception, the status is left as it
    was, and only the listing has been issued. *)
Theorem failed_listing_escapes_stop env w rc err d :
  own_flag w = Some (PStr "True") →
  proc env lxc_list_argv = Exited rc "" err d →
  rc ≠ 0 →
  json_loads env "" = None →
  (∀ w0, (subprocess_run env lxc_list_argv true false None w0).1
         = Ok (mkCompleted rc (Some "") (Some err)))
  ∧ (∀ node w0, removal_safety_check env node w0 = inspect_instances env node w0)
  ∧ evaluate env StopEvent w
    = (Raise JSONDecodeError, with_issued [lxc_list_argv] (fresh w))
  ∧ unit_status (evaluate env StopEvent w).2 = unit_status w.
Proof.
  intros Hown Hproc Hrc Hjson.
  assert (Hstop : evaluate env StopEvent w
                  = (Raise JSONDecodeError, with_issued [lxc_list_argv] (fresh w))).
  { rewrite (stop_run env w Hown). unfold microcloud_remove, try_except, bind at 1.
    rewrite safety_check_handlers_dead. unfold inspect_instances, bind at 1.
    rewrite subprocess_run_unchecked, Hproc. simpl.
    unfold json_loads_arg. by rewrite Hjson. }
  split; [|split; [|split]].
  - intros w0. by rewrite subprocess_run_unchecked, Hproc.
  - intros node w0. apply safety_check_handlers_dead.
  - exact Hstop.
  - by rewrite Hstop.
Qed.

(** ** C5: the order of the removal *)




Lemma inspect_instances_eq env node w :
  inspect_instances env node w =
    let w1 := with_issued (issued w ++ [lxc_list_argv]) w in
    match proc env lxc_list_argv with
    | SpawnFailed => (Raise (FileNotFoundError lxc_list_argv), w1)
    | Exited rc out err d =>
        match json_loads env out with
        | None => (Raise JSONDecodeError, w1)
        | Some j =>
            match py_iter j with
            | Raise e => (Raise e, w1)
            | Ok insts => instances_loop insts node w1
            end
        end
    end.
Proof.
  unfold inspect_instances. unfold bind at 1. rewrite subprocess_run_unchecked.
  destruct (proc env lxc_list_argv) as [rc out err d|]; simpl; [|done].
  unfold json_loads_arg. destruct (json_loads env out) as [j|]; [|done].
  unfold bind at 1, ret at 1. by destruct (py_iter j).
Qed.


#[local] Instance same_deferred_preorder : PreOrder same_deferred.
Proof. split; [done|]. intros a b c H1 H2. unfold same_deferred in *. congruence. Qed.







(** ** The claims on the example deployments *)

Lemma start_claim_fails :
  ¬ start_claim (example_env false 3 all_succeed)
      (example_world (flag_bag "False") {[ "microcloud/1" := flag_bag "True" ]}).
Proof.
  intros [_ H]. destruct H as [Hw _].
  - intros (r & _ & Hl & _). vm_compute in Hl. discriminate.
  - vm_compute in Hw. discriminate.
Qed.

Lemma start_waits_for_third_unit :
  is_waiting (unit_status (evaluate (example_env true 3 all_succeed) StartEvent two_of_three).2)
    = true
  ∧ deferred (evaluate (example_env true 3 all_succeed) StartEvent two_of_three).2 = true
  ∧ microcloud_init_argv
      ∉ issued (evaluate (example_env true 3 all_succeed) StartEvent two_of_three).2.
Proof.
  apply (proj2 (start_initializes_only_at_quorum (example_env true 3 all_succeed) two_of_three)
           (mkRelation (flag_bag "False") {[ "microcloud/1" := flag_bag "False" ]})).
  - reflexivity.
  - intros (_ & _ & _ & H). vm_compute in H. discriminate.
  - unfold no_peer_clustered. apply (bool_decide_unpack _). vm_compute. exact I.
  - vm_compute. reflexivity.
Defined.

Lemma stale_flag_is_corrected :
  let env := example_env false 3 all_succeed in
  let w := example_world (flag_bag "False") {[ "microcloud/1" := flag_bag "True" ]} in
  let r := peer_clustered in
  ((evaluate env UpdateStatusEvent w).1 = Ok tt
   ∧ unit_status (evaluate env UpdateStatusEvent w).2 = ActiveStatus
   ∧ peers (evaluate env UpdateStatusEvent w).2 = Some (mark_clustered r)
   ∧ own_flag (evaluate env UpdateStatusEvent w).2 = Some (PStr "True")
   ∧ issued (evaluate env UpdateStatusEvent w).2 = [lxc_cluster_list])
  ∧ (one_peer_clustered env r = true →
     (apply_pending_config env (fresh w)).1 = Ok tt →
     (evaluate env StartEvent w).1 = Ok tt
     ∧ unit_status (evaluate env StartEvent w).2 = ActiveStatus
     ∧ peers (evaluate env StartEvent w).2 = Some (mark_clustered r)
     ∧ own_flag (evaluate env StartEvent w).2 = Some (PStr "True")
     ∧ lxc_cluster_list ∈ issued (evaluate env StartEvent w).2
     ∧ microcloud_init_argv ∉ issued (evaluate env StartEvent w).2)
  ∧ (one_peer_clustered env r = false →
     (lxc_cluster_list ∉ issued (evaluate env StartEvent w).2)
     ∧ (should_initialize env r = false →
        peers (evaluate env StartEvent w).2 = peers w
        ∧ ((evaluate env StartEvent w).1 = Ok tt →
           is_waiting (unit_status (evaluate env StartEvent w).2) = true))).
Proof.
  apply (probe_success_marks_clustered (example_env false 3 all_succeed)
           (example_world (flag_bag "False") {[ "microcloud/1" := flag_bag "True" ]})
           peer_clustered).
  - reflexivity.
  - vm_compute. reflexivity.
Defined.

Lemma start_skips_the_probe :
  ¬ probe_claim (example_env false 3 all_succeed) StartEvent two_of_three.
Proof.
  intros Hclaim. destruct Hclaim as [Hflag _]; [vm_compute; reflexivity|].
  vm_compute in Hflag. discriminate.
Qed.

Lemma flag_falls_on_relation_created : ¬ flag_never_falls falling_steps fresh_unit.
Proof.
  intros H. specialize (H 2%nat).
  assert (own_flag (run_steps (take 2 falling_steps) fresh_unit) = Some (PStr "True")) as Ht
    by (vm_compute; reflexivity).
  specialize (H Ht). vm_compute in H. discriminate.
Qed.

Lemma flag_rises_in_example :
  (own_flag (run_steps rising_steps two_of_three) = own_flag two_of_three
   ∨ own_flag (run_steps rising_steps two_of_three) = Some (PStr "True"))
  ∧ (own_flag two_of_three = Some (PStr "True") →
     own_flag (run_steps rising_steps two_of_three) = Some (PStr "True"))
  ∧ (∀ env r, peers two_of_three = Some r →
       own_flag (evaluate env RelationCreatedEvent two_of_three).2 = Some (PStr "False")).
Proof.
  apply (own_flag_only_rises rising_steps two_of_three).
  unfold rising_steps. repeat constructor.
Defined.

Lemma occupied_node0_is_kept :
  microcloud_remove (example_env false 2 listing_occupied) "node0" clustered_world
  = (Ok tt, with_status (BlockedStatus refusal)
              (with_issued (issued clustered_world ++ [lxc_list_argv]) clustered_world)).
Proof.
  apply (occupied_unit_is_not_removed (example_env false 2 listing_occupied) "node0"
           clustered_world 0 inventory_text "" 1
           [JObj [("name", JStr "c1"); ("location", JStr "node0")]]).
  - reflexivity.
  - vm_compute. reflexivity.
  - repeat constructor. exists (JStr "node0"). reflexivity.
  - constructor. reflexivity.
Defined.



Lemma failed_init_is_not_deferred :
  ¬ failed_init_claim (example_env true 2 init_fails)
      (example_world (flag_bag "False") {[ "microcloud/1" := flag_bag "False" ]}).
Proof.
  intros H. unfold failed_init_claim in H.
  assert (microcloud_init_argv
          ∈ issued (evaluate (example_env true 2 init_fails) StartEvent
                      (example_world (flag_bag "False")
                         {[ "microcloud/1" := flag_bag "False" ]})).2) as Hin
    by (apply (bool_decide_unpack _); vm_compute; exact I).
  destruct (H Hin) as (_ & _ & Hd).
  - left. vm_compute. reflexivity.
  - vm_compute in Hd. discriminate.
Qed.

Lemma failed_init_blocks_in_example :
  let env := example_env true 2 init_fails in
  let w := example_world (flag_bag "False") {[ "microcloud/1" := flag_bag "False" ]} in
  (evaluate env StartEvent w).1 = Ok tt
  ∧ unit_status (evaluate env StartEvent w).2
    = BlockedStatus (Lit "Failed to initialize MicroCloud")
  ∧ peers (evaluate env StartEvent w).2 = peers w
  ∧ own_flag (evaluate env StartEvent w).2 = Some (PStr "False")
  ∧ deferred (evaluate env StartEvent w).2 = deferred (apply_pending_config env (fresh w)).2
  ∧ ((config_changed env (fresh w)).1 = Ok ∅ → deferred (evaluate env StartEvent w).2 = false).
Proof.
  apply (failed_initialization_blocks (example_env true 2 init_fails)
           (example_world (flag_bag "False") {[ "microcloud/1" := flag_bag "False" ]})).
  - apply (bool_decide_unpack _). vm_compute. exact I.
  - left. vm_compute. reflexivity.
Defined.

Lemma foreign_bag_raises :
  ¬ read_never_raises (example_env false 2 all_succeed) clustered_world.
Proof.
  intros H. destruct (H (Some "microcloud/9") "clustered") as [s Hs].
  vm_compute in Hs. discriminate.
Qed.

Lemma peer_bag_is_read :
  let env := example_env false 2 all_succeed in
  let bag := Some "microcloud/1" in
  (∃ s, get_peer_data_str env bag "clustered" clustered_world = (Ok s, clustered_world))
  ∧ (peers clustered_world = None ∨ bag = None ∨ "clustered" = ""
     ∨ stored_value env clustered_world bag "clustered" = None
     ∨ (∃ v, stored_value env clustered_world bag "clustered" = Some v ∧ ∀ s, v ≠ PStr s) →
     get_peer_data_str env bag "clustered" clustered_world = (Ok "", clustered_world))
  ∧ (∀ s, "clustered" ≠ "" →
     stored_value env clustered_world bag "clustered" = Some (PStr s) →
     get_peer_data_str env bag "clustered" clustered_world = (Ok s, clustered_world))
  ∧ (∀ value, stored_value env clustered_world bag "clustered" = Some (PStr value) →
     set_peer_data_str env bag "clustered" value clustered_world = (Ok tt, clustered_world)).
Proof.
  apply (peer_data_accessors (example_env false 2 all_succeed) clustered_world
           (Some "microcloud/1") "clustered").
  exists (flag_bag "True"). vm_compute. reflexivity.
Defined.

Lemma failed_listing_in_example :
  let env := example_env false 2 listing_fails in
  (∀ w0, (subprocess_run env lxc_list_argv true false None w0).1
         = Ok (mkCompleted 1 (Some "") (Some "cannot connect")))
  ∧ (∀ node w0, removal_safety_check env node w0 = inspect_instances env node w0)
  ∧ evaluate env StopEvent clustered_world
    = (Raise JSONDecodeError, with_issued [lxc_list_argv] (fresh clustered_world))
  ∧ unit_status (evaluate env StopEvent clustered_world).2 = unit_status clustered_world.
Proof.
  apply (failed_listing_escapes_stop (example_env false 2 listing_fails) clustered_world
           1 "cannot connect" 1).
  - vm_compute. reflexivity.
  - reflexivity.
  - discriminate.
  - vm_compute. reflexivity.
Defined.

(** * Further properties *)

(** ** The peer data accessors on the unit's own bag *)

Lemma own_get_run env w r key :
  peers w = Some r → key ≠ "" →
  get_peer_data_str env (Some (unit_name env)) key w
  = (Ok match own_data r !! key with Some (PStr s) => s | _ => "" end, w).
Proof.
  intros Hp Hk. unfold get_peer_data_str, bind, get, lift, ret, data_getitem. rewrite Hp.
  rewrite decide_False by done. rewrite decide_True by done.
  by destruct (own_data r !! key) as [[]|].
Qed.

(** What a write to the own bag does: nothing when the value read back is
    already the one to store, one insertion otherwise. *)
Lemma own_set_run env w r key value :
  peers w = Some r → key ≠ "" →
  set_peer_data_str env (Some (unit_name env)) key value w
  = (Ok tt,
     if decide (match own_data r !! key with Some (PStr s) => s | _ => "" end = value)
     then w
     else with_peers (Some (mkRelation (<[key := PStr value]> (own_data r)) (peer_data r))) w).
Proof.
  intros Hp Hk. unfold set_peer_data_str.
  unfold bind at 1, get at 1. rewrite Hp.
  rewrite decide_False by done.
  rewrite (bind_ok _ _ _ _ _ (own_get_run env w r key Hp Hk)).
  case_decide; [done|].
  unfold bind, get, lift, modify, data_setitem, data_getitem. rewrite Hp.
  by rewrite !decide_True by done.
Qed.

(** X1. Writing a value under a non-empty key of the unit's own bag and
    reading the key back gives that value, whatever was stored before
    (nothing, another string, a non-string) and whatever the value (the
    empty string included); the write returns without raising. *)
Theorem own_bag_write_read env w r key value :
  peers w = Some r → key ≠ "" →
  (set_peer_data_str env (Some (unit_name env)) key value w).1 = Ok tt
  ∧ (get_peer_data_str env (Some (unit_name env)) key
       (set_peer_data_str env (Some (unit_name env)) key value w).2).1 = Ok value.
Proof.
  intros Hp Hk. rewrite (own_set_run env w r key value Hp Hk). simpl.
  split; [done|]. case_decide as Hsame.
  - rewrite (own_get_run env w r key Hp Hk). simpl. by f_equal.
  - erewrite own_get_run; [|reflexivity|done]. simpl. by rewrite lookup_insert_eq.
Qed.

(** X2. A write to the unit's own bag touches nothing but the entry
    written: the other entries of the bag, the bags of the remote units, the
    status, the stored snapshot, the commands issued and the deferral are as
    before; and writing the same value a second time changes nothing. *)
Theorem own_bag_write_frame env w r key value :
  peers w = Some r → key ≠ "" →
  ∃ r', peers (set_peer_data_str env (Some (unit_name env)) key value w).2 = Some r'
    ∧ peer_data r' = peer_data r
    ∧ (∀ k, k ≠ key → own_data r' !! k = own_data r !! k)
    ∧ (set_peer_data_str env (Some (unit_name env)) key value w).2
      = with_peers (Some r') w
    ∧ set_peer_data_str env (Some (unit_name env)) key value
        (set_peer_data_str env (Some (unit_name env)) key value w).2
      = (Ok tt, (set_peer_data_str env (Some (unit_name env)) key value w).2).
Proof.
  intros Hp Hk. rewrite (own_set_run env w r key value Hp Hk). simpl.
  case_decide as Hsame.
  - exists r. repeat split; try done.
    + by rewrite <- Hp, with_peers_same.
    + rewrite (own_set_run env w r key value Hp Hk). by rewrite decide_True.
  - eexists. split; [reflexivity|]. simpl. repeat split.
    + intros k Hne. by rewrite lookup_insert_ne.
    + erewrite own_set_run; [|reflexivity|done]. simpl.
      rewrite lookup_insert_eq. by rewrite decide_True.
Qed.

(** ** The configuration delta *)

Lemma py_eq_refl v : py_eq v v = true.
Proof.
  destruct v as [s|n|b|]; simpl; [apply String.eqb_refl|apply Z.eqb_refl| |done].
  by destruct b.
Qed.

Lemma config_changed_run env w : config_changed env w = (Ok (delta env w), w).
Proof. reflexivity. Qed.

Lemma delta_lookup env w k v :
  delta env w !! k = Some v
  ↔ config env !! k = Some v
    ∧ (stored_config w !! k = None
       ∨ ∃ old, stored_config w !! k = Some old ∧ py_eq v old = false).
Proof.
  unfold delta, config_changed, bind, get, ret. simpl.
  rewrite map_lookup_imap.
  destruct (config env !! k) as [v'|]; simpl.
  2:{ split; [done|by intros [? _]]. }
  destruct (stored_config w !! k) as [old|].
  - destruct (py_eq v' old) eqn:Heq.
    + split; [done|]. intros [[= ->] [|(old' & [= <-] & Hf)]]; congruence.
    + split.
      * intros [= ->]. split; [done|]. right. eauto.
      * by intros [[= ->] _].
  - split.
    + intros [= ->]. auto.
    + by intros [[= ->] _].
Qed.

(** X3. [config_changed] never raises and changes nothing; an option is in
    the delta it returns exactly when the configuration defines it and the
    snapshot has no value for it or a value that differs.  So an option that
    is only in the snapshot is never reported, and an option whose value
    equals the stored one is not reported. *)
Theorem config_changed_reports_new_and_differing env w :
  ∃ changed,
    config_changed env w = (Ok changed, w)
    ∧ (∀ k v, changed !! k = Some v
        ↔ config env !! k = Some v
          ∧ (stored_config w !! k = None
             ∨ ∃ old, stored_config w !! k = Some old ∧ py_eq v old = false))
    ∧ (∀ k, config env !! k = None → changed !! k = None)
    ∧ (∀ k, config env !! k = stored_config w !! k → changed !! k = None).
Proof.
  exists (delta env w). split; [apply config_changed_run|].
  split; [apply delta_lookup|]. split.
  - intros k Hk. destruct (delta env w !! k) as [v|] eqn:Hd; [|done].
    apply delta_lookup in Hd as [Hc _]. congruence.
  - intros k Hk. destruct (delta env w !! k) as [v|] eqn:Hd; [|done].
    apply delta_lookup in Hd as [Hc [Hs|(old & Hs & Hne)]].
    + congruence.
    + rewrite Hc, Hs in Hk. injection Hk as ->. by rewrite py_eq_refl in Hne.
Qed.

Lemma channel_free_delta_skips env w :
  Forall (fun k => delta env w !! k = None) channel_options →
  _on_charm_config_changed env w = (Ok tt, w).
Proof.
  intros Hnone.
  unfold _on_charm_config_changed, config_is_valid.
  rewrite (bind_ok _ _ w true w) by reflexivity. simpl.
  unfold apply_changed_config.
  rewrite (bind_ok _ _ _ _ _ (config_changed_run env w)).
  case_bool_decide; [done|].
  apply Forall_cons in Hnone as [H1 Hnone]. apply Forall_cons in Hnone as [H2 Hnone].
  apply Forall_cons in Hnone as [H3 Hnone]. apply Forall_cons in Hnone as [H4 _].
  rewrite H1, H2, H3, H4.
  rewrite !bool_decide_false by (by intros [? ?]). done.
Qed.

(** X4. A configuration change that touches none of the four snap channel
    options is ignored: the config-changed handler returns without
    installing anything, running any command, setting a status or deferring:
    the unit is exactly as before.  In particular toggling [microceph] or
    [microovn] after deployment has no effect. *)
Theorem non_channel_changes_are_ignored env w :
  Forall (fun k => delta env w !! k = None) channel_options →
  _on_charm_config_changed env w = (Ok tt, w).
Proof.
  intros Hnone.
  assert (apply_changed_config env w = (Ok tt, w)) as Happly.
  { unfold apply_changed_config.
    rewrite (bind_ok _ _ _ _ _ (config_changed_run env w)).
    destruct (bool_decide (delta env w = ∅)); [done|].
    rewrite Forall_forall in Hnone. unfold channel_options in Hnone.
    rewrite !bool_decide_false; [done|..];
      (rewrite Hnone; [by intros [? ?]|]);
      rewrite !elem_of_cons; auto 10. }
  unfold _on_charm_config_changed, config_is_valid.
  by rewrite (bind_ok _ _ w true w).
Qed.

(** ** Which exceptions leave an operation *)

Section Raises.
Context (P : exn → Prop).

Lemma raises_ret {A} (a : A) : raises_only P (ret a).
Proof. intros w e. discriminate. Qed.

Lemma raises_get {A} (f : World → A) : raises_only P (get f).
Proof. intros w e. discriminate. Qed.

Lemma raises_modify f : raises_only P (modify f).
Proof. intros w e. discriminate. Qed.

Lemma raises_raise {A} e : P e → raises_only P (raise (A := A) e).
Proof. intros He w e' [= <-]. done. Qed.

Lemma raises_lift {A} (r : result A) : (∀ e, r = Raise e → P e) → raises_only P (lift r).
Proof. intros Hr w e. simpl. apply Hr. Qed.

Lemma raises_bind {A B} (m : M A) (k : A → M B) :
  raises_only P m → (∀ a, raises_only P (k a)) → raises_only P (bind m k).
Proof.
  intros Hm Hk w e. unfold bind. specialize (Hm w).
  destruct (m w) as [[a|e'] w1]; simpl in *.
  - apply Hk.
  - intros [= <-]. by apply Hm.
Qed.

Lemma raises_when b m : raises_only P m → raises_only P (when b m).
Proof. intros Hm. destruct b; [done|apply raises_ret]. Qed.

Lemma raises_try_except {A} (Q : exn → Prop) (m : M A) h :
  raises_only Q m →
  (∀ e, Q e → match h e with Some k => raises_only P k | None => P e end) →
  raises_only P (try_except m h).
Proof.
  intros Hm Hh w e. unfold try_except. specialize (Hm w).
  destruct (m w) as [[a|e'] w1]; simpl in *; [discriminate|].
  specialize (Hh e' (Hm e' eq_refl)).
  destruct (h e') as [k|]; [apply Hh|]. by intros [= <-].
Qed.

Lemma raises_subprocess_run env argv capture check timeout :
  (∀ rc err, P (CalledProcessError argv rc err)) →
  P (TimeoutExpired argv) → P (FileNotFoundError argv) →
  raises_only P (subprocess_run env argv capture check timeout).
Proof.
  intros Hc Ht Hf. unfold subprocess_run. apply raises_bind; [apply raises_modify|].
  intros _. destruct (proc env argv); [|by apply raises_raise].
  destruct timeout; repeat case_match;
    by (apply raises_raise || apply raises_ret).
Qed.

End Raises.

Lemma raises_weaken (P Q : exn → Prop) {A} (m : M A) :
  (∀ e, P e → Q e) → raises_only P m → raises_only Q m.
Proof. intros HPQ Hm w e He. by apply HPQ, (Hm w). Qed.

Create HintDb raises discriminated.

Ltac raises_go :=
  repeat first
    [ assumption
    | solve [auto with raises nocore]
    | apply raises_subprocess_run; [intros ? ?; done|done|done]
    | apply raises_ret | apply raises_get | apply raises_modify
    | apply raises_raise; done
    | apply raises_bind; [|intros ?]
    | apply raises_when
    | match goal with
      | |- raises_only _ (if ?b then _ else _) => destruct b
      | |- raises_only _ (match ?x with _ => _ end) => destruct x
      end ].

(** ** Installing the snaps *)

#[local] Instance same_unit_preorder : PreOrder same_unit.
Proof.
  split; [done|]. intros a b c (H1 & H2 & H3) (H4 & H5 & H6). unfold same_unit in *.
  repeat split; congruence.
Qed.

Ltac same_unit_leaf := by repeat split.

Lemma snap_install_split env :
  snap_install_microcloud env =
  (try_except (install_snaps env) on_snap_error >> record_channels env).
Proof. reflexivity. Qed.

Lemma install_snaps_same_unit env : frames same_unit (install_snaps env).
Proof.
  unfold install_snaps, ensure_if_absent, ensure, config_getitem, record_effect.
  frames_go same_unit_leaf.
Qed.

Lemma install_snaps_raises env :
  raises_only (fun e => e ≠ RuntimeError) (install_snaps env).
Proof.
  unfold install_snaps, ensure_if_absent, ensure, config_getitem, record_effect.
  raises_go.
Qed.

Lemma record_channels_run env w :
  unit_status (record_channels env w).2 = unit_status w
  ∧ deferred (record_channels env w).2 = deferred w
  ∧ match (record_channels env w).1 with
    | Ok _ => stored_config (record_channels env w).2 = snapshot_after env (stored_config w)
              ∧ Forall (fun o => is_Some (config env !! o)) channel_options
    | Raise (KeyError _) => True
    | Raise _ => False
    end.
Proof.
  unfold record_channels, config_getitem, stored_config_setitem, snapshot_after,
    channel_options.
  mrun.
  destruct (config env !! "snap-channel-lxd") as [v1|] eqn:H1; mrun; [|by auto].
  destruct (config env !! "snap-channel-microcloud") as [v2|] eqn:H2; mrun; [|by auto].
  destruct (config env !! "snap-channel-microceph") as [v3|] eqn:H3; mrun; [|by auto].
  destruct (config env !! "snap-channel-microovn") as [v4|] eqn:H4; mrun; [|by auto].
  repeat split; repeat constructor; eauto.
Qed.

(** What [snap_install_microcloud] leaves behind, by outcome. *)
Lemma snap_install_outcome env w :
  deferred (snap_install_microcloud env w).2 = deferred w
  ∧ match (snap_install_microcloud env w).1 with
    | Ok _ =>
        (∃ w1, install_snaps env w = (Ok tt, w1))
        ∧ stored_config (snap_install_microcloud env w).2
          = snapshot_after env (stored_config w)
        ∧ unit_status (snap_install_microcloud env w).2 = unit_status w
        ∧ Forall (fun k => is_Some (config env !! k)) channel_options
    | Raise RuntimeError =>
        (∃ msg, (install_snaps env w).1 = Raise (SnapError msg))
        ∧ stored_config (snap_install_microcloud env w).2 = stored_config w
        ∧ unit_status (snap_install_microcloud env w).2 = BlockedStatus snap_failure
    | Raise (SnapError _) => False
    | Raise e =>
        ((install_snaps env w).1 = Raise e
         ∨ (∃ w1, install_snaps env w = (Ok tt, w1)) ∧ ∃ k, e = KeyError k)
        ∧ unit_status (snap_install_microcloud env w).2 = unit_status w
    end.
Proof.
  rewrite snap_install_split. unfold bind, try_except.
  pose proof (install_snaps_same_unit env w) as (Hst & Hsc & Hd).
  pose proof (install_snaps_raises env w) as Hraise.
  destruct (install_snaps env w) as [[[]|e] w1]; simpl in Hst, Hsc, Hd, Hraise; cbv beta iota.
  - destruct (record_channels_run env w1) as (Hs & Hd' & Hr).
    destruct (record_channels env w1) as [[[]|e] w2]; simpl in *.
    + destruct Hr as [Hr Hall]. rewrite Hd', Hr, Hs, Hst, Hsc. eauto 10.
    + rewrite Hd', Hd. split; [done|]. destruct e; try done.
      rewrite Hs, Hst. split; [right; eauto|done].
  - specialize (Hraise e eq_refl).
    destruct e; simpl; try done; unfold unit_blocked; mrun; eauto.
Qed.

(** X5. A failed snap operation never leaves [snap_install_microcloud] as
    a [SnapError]: the method raises [RuntimeError] exactly when one of its
    snap operations raised [SnapError], and then the status is Blocked with
    the installation message while the stored snapshot, the relation and the
    deferral are as before, so the next evaluation sees the same delta. *)
Theorem snap_error_becomes_runtime_error env w :
  (∀ msg, (snap_install_microcloud env w).1 ≠ Raise (SnapError msg))
  ∧ ((snap_install_microcloud env w).1 = Raise RuntimeError
     ↔ ∃ msg, (install_snaps env w).1 = Raise (SnapError msg))
  ∧ ((snap_install_microcloud env w).1 = Raise RuntimeError →
     unit_status (snap_install_microcloud env w).2 = BlockedStatus snap_failure
     ∧ stored_config (snap_install_microcloud env w).2 = stored_config w
     ∧ peers (snap_install_microcloud env w).2 = peers w
     ∧ deferred (snap_install_microcloud env w).2 = deferred w).
Proof.
  pose proof (snap_install_outcome env w) as [Hd Hout].
  pose proof (snap_install_same_peers env w) as Hp.
  split; [|split].
  - intros msg Hm. by rewrite Hm in Hout.
  - split.
    + intros Hr. rewrite Hr in Hout. apply Hout.
    + intros [msg Hm]. destruct (snap_install_microcloud env w).1 as [[]|e] eqn:Hres.
      * destruct Hout as [[w1 Hw1] _]. rewrite Hw1 in Hm. discriminate.
      * destruct e; try done;
          destruct Hout as [[Hi|[[w1 Hw1] _]] _]; try congruence;
          rewrite Hw1 in Hm; discriminate.
  - intros Hr. rewrite Hr in Hout. destruct Hout as (_ & Hsc & Hst). done.
Qed.

Lemma snapshot_after_lookup env stored k :
  k ∈ channel_options → is_Some (config env !! k) →
  snapshot_after env stored !! k = config env !! k.
Proof.
  unfold channel_options, snapshot_after. rewrite !elem_of_cons, elem_of_nil.
  intros Hk [v Hv]. rewrite Hv.
  destruct Hk as [->|[->|[->|[->|[]]]]];
    repeat (rewrite lookup_insert_ne by done);
    rewrite lookup_insert_eq; by rewrite Hv.
Qed.

(** X6. When [snap_install_microcloud] returns, the stored snapshot holds
    the configured value of each of the four channel options (all four are
    configured, else the method raises), its other entries are untouched,
    and neither the status, the relation nor the deferral has changed. *)
Theorem snap_install_records_channels env w :
  (snap_install_microcloud env w).1 = Ok tt →
  (∀ k, k ∈ channel_options →
     is_Some (config env !! k)
     ∧ stored_config (snap_install_microcloud env w).2 !! k = config env !! k)
  ∧ (∀ k, k ∉ channel_options →
     stored_config (snap_install_microcloud env w).2 !! k = stored_config w !! k)
  ∧ unit_status (snap_install_microcloud env w).2 = unit_status w
  ∧ peers (snap_install_microcloud env w).2 = peers w
  ∧ deferred (snap_install_microcloud env w).2 = deferred w.
Proof.
  intros Hok. pose proof (snap_install_outcome env w) as [Hd Hout].
  pose proof (snap_install_same_peers env w) as Hp.
  rewrite Hok in Hout. destruct Hout as (_ & Hsc & Hst & Hall).
  rewrite Hsc. repeat split; try done.
  - rewrite Forall_forall in Hall. by apply Hall.
  - apply snapshot_after_lookup; [done|]. rewrite Forall_forall in Hall. by apply Hall.
  - intros k Hk. unfold channel_options in Hk. unfold snapshot_after.
    rewrite !not_elem_of_cons in Hk. destruct Hk as (? & ? & ? & ? & _).
    by rewrite !lookup_insert_ne by done.
Qed.

(** X7. Installing settles the configuration: right after
    [snap_install_microcloud] has returned, no channel option is in the
    delta and the config-changed handler does nothing at all. *)
Theorem config_settles_after_install env w :
  (snap_install_microcloud env w).1 = Ok tt →
  Forall (fun k => delta env (snap_install_microcloud env w).2 !! k = None) channel_options
  ∧ _on_charm_config_changed env (snap_install_microcloud env w).2
    = (Ok tt, (snap_install_microcloud env w).2).
Proof.
  intros Hok. pose proof (snap_install_outcome env w) as [Hd Hout].
  rewrite Hok in Hout. destruct Hout as (_ & Hsc & Hst & Hall).
  assert (Forall (fun k => delta env (snap_install_microcloud env w).2 !! k = None)
            channel_options) as Hnone.
  { rewrite Forall_forall in Hall. apply Forall_forall. intros k Hk.
    destruct (delta env _ !! k) as [v|] eqn:Hd'; [|done].
    apply delta_lookup in Hd' as [Hc Hs]. rewrite Hsc in Hs.
    rewrite (snapshot_after_lookup env _ k Hk (Hall k Hk)), Hc in Hs.
    destruct Hs as [Hs|(old & [= <-] & Hne)]; [done|]. by rewrite py_eq_refl in Hne. }
  split; [done|]. by apply channel_free_delta_skips.
Qed.

Lemma channel_test env w :
  bool_decide (is_Some (delta env w !! "snap-channel-lxd"))
  || bool_decide (is_Some (delta env w !! "snap-channel-microcloud"))
  || bool_decide (is_Some (delta env w !! "snap-channel-microceph"))
  || bool_decide (is_Some (delta env w !! "snap-channel-microovn")) = true
  ↔ Exists (fun k => is_Some (delta env w !! k)) channel_options.
Proof.
  unfold channel_options. rewrite !orb_true_iff, !bool_decide_eq_true.
  rewrite !Exists_cons, Exists_nil. tauto.
Qed.

Lemma config_changed_handler_run env w :
  Exists (fun k => is_Some (delta env w !! k)) channel_options →
  _on_charm_config_changed env w =
    try_except (snap_install_microcloud env)
      (fun e =>
         match e with
         | RuntimeError =>
             Some (unit_blocked (FailedToApply (map_to_list (delta env w)).*1) >> event_defer)
         | _ => None
         end) w.
Proof.
  intros Hex.
  unfold _on_charm_config_changed, config_is_valid.
  rewrite (bind_ok _ _ w true w) by reflexivity. simpl.
  unfold apply_changed_config.
  rewrite (bind_ok _ _ _ _ _ (config_changed_run env w)).
  case_bool_decide as Hempty.
  { rewrite Hempty in Hex. apply Exists_exists in Hex as (k & _ & [v Hv]).
    by rewrite lookup_empty in Hv. }
  apply channel_test in Hex. rewrite Hex. done.
Qed.

(** X8. When a channel option has changed and the installation raises
    [RuntimeError], the config-changed handler returns normally with the
    status Blocked on the names of all changed options and the event
    deferred; the stored snapshot and the relation are untouched. *)
Theorem failed_config_change_is_deferred env w :
  Exists (fun k => is_Some (delta env w !! k)) channel_options →
  (snap_install_microcloud env w).1 = Raise RuntimeError →
  (_on_charm_config_changed env w).1 = Ok tt
  ∧ unit_status (_on_charm_config_changed env w).2
    = BlockedStatus (FailedToApply (map_to_list (delta env w)).*1)
  ∧ deferred (_on_charm_config_changed env w).2 = true
  ∧ stored_config (_on_charm_config_changed env w).2 = stored_config w
  ∧ peers (_on_charm_config_changed env w).2 = peers w.
Proof.
  intros Hex Hfail. rewrite (config_changed_handler_run env w Hex).
  pose proof (snap_install_outcome env w) as [Hd Hout].
  pose proof (snap_install_same_peers env w) as Hp.
  rewrite Hfail in Hout. destruct Hout as (_ & Hsc & Hst).
  unfold try_except.
  destruct (snap_install_microcloud env w) as [res w1]. simpl in *. subst res.
  mrun. done.
Qed.

(** X9. When a channel option has changed and the installation returns,
    the config-changed handler is that installation: it returns, does not
    defer, and a second run of the handler finds nothing to do. *)
Theorem channel_change_is_applied_once env w :
  Exists (fun k => is_Some (delta env w !! k)) channel_options →
  (snap_install_microcloud env w).1 = Ok tt →
  _on_charm_config_changed env w = snap_install_microcloud env w
  ∧ deferred (_on_charm_config_changed env w).2 = deferred w
  ∧ unit_status (_on_charm_config_changed env w).2 = unit_status w
  ∧ _on_charm_config_changed env (_on_charm_config_changed env w).2
    = (Ok tt, (_on_charm_config_changed env w).2).
Proof.
  intros Hex Hok.
  assert (_on_charm_config_changed env w = snap_install_microcloud env w) as ->.
  { rewrite (config_changed_handler_run env w Hex). unfold try_except.
    destruct (snap_install_microcloud env w) as [res w1]. simpl in Hok. by subst res. }
  pose proof (snap_install_outcome env w) as [Hd Hout].
  rewrite Hok in Hout. destruct Hout as (_ & Hsc & Hst & Hall).
  repeat split; try done.
  assert (Forall (fun k => delta env (snap_install_microcloud env w).2 !! k = None)
            channel_options) as Hnone.
  { rewrite Forall_forall in Hall. apply Forall_forall. intros k Hk.
    destruct (delta env _ !! k) as [v|] eqn:Hd'; [|done].
    apply delta_lookup in Hd' as [Hc Hs]. rewrite Hsc in Hs.
    rewrite (snapshot_after_lookup env _ k Hk (Hall k Hk)), Hc in Hs.
    destruct Hs as [Hs|(old & [= <-] & Hne)]; [done|]. by rewrite py_eq_refl in Hne. }
  by apply channel_free_delta_skips.
Qed.

(** ** The install handler *)

(** X10. When the installation raises [RuntimeError], the install handler
    defers the event and stops there: it returns normally, no resource is
    fetched or side-loaded, the stored paths and snapshot are untouched and
    the status is the Blocked one the installation has set. *)
Theorem failed_install_is_deferred env w :
  (snap_install_microcloud env w).1 = Raise RuntimeError →
  _on_charm_install env w = (Ok tt, with_deferred true (snap_install_microcloud env w).2)
  ∧ unit_status (_on_charm_install env w).2 = BlockedStatus snap_failure
  ∧ stored_config (_on_charm_install env w).2 = stored_config w.
Proof.
  intros Hfail.
  pose proof (snap_install_outcome env w) as [Hd Hout].
  rewrite Hfail in Hout. destruct Hout as (_ & Hsc & Hst).
  assert (_on_charm_install env w
          = (Ok tt, with_deferred true (snap_install_microcloud env w).2)) as ->.
  { unfold _on_charm_install, config_is_valid.
    rewrite (bind_ok _ _ w true w) by reflexivity. simpl.
    unfold install_microcloud. unfold bind at 1, try_except, bind at 1.
    destruct (snap_install_microcloud env w) as [res w1]. simpl in Hfail. subst res.
    reflexivity. }
  done.
Qed.

(** ** The health probe when it fails *)

(** X11. When the probe of the update-status handler fails or times out,
    the handler returns normally with the status Blocked (a message for each
    of the two cases), does not defer, and leaves the relation alone: a
    unit whose flag reads "True" keeps it.  The probe is the only command. *)
Theorem failed_probe_blocks_update_status env w :
  fate_of env lxc_cluster_list 600 = Failed ∨ fate_of env lxc_cluster_list 600 = TimedOut →
  (evaluate env UpdateStatusEvent w).1 = Ok tt
  ∧ unit_status (evaluate env UpdateStatusEvent w).2
    = BlockedStatus
        (Lit match fate_of env lxc_cluster_list 600 with
             | Failed => "This unit has failed to join the cluster"
             | _ => "This unit timed out checking its clustered status"
             end)
  ∧ peers (evaluate env UpdateStatusEvent w).2 = peers w
  ∧ own_flag (evaluate env UpdateStatusEvent w).2 = own_flag w
  ∧ deferred (evaluate env UpdateStatusEvent w).2 = false
  ∧ issued (evaluate env UpdateStatusEvent w).2 = [lxc_cluster_list].
Proof.
  intros Hfate. unfold evaluate, dispatch, _on_update_status. mrun.
  destruct Hfate as [Hf|Hf]; rewrite Hf.
  - destruct (fate_failed env lxc_cluster_list false 600 Hf) as (rc & err & ->). by mrun.
  - rewrite (fate_timed_out env lxc_cluster_list false 600 Hf). by mrun.
Qed.

Lemma check_clustered_failure env w :
  match fate_of env lxc_cluster_list 600 with
  | Failed =>
      check_clustered env w
      = (Ok tt, with_deferred true
                  (with_status (WaitingStatus (Lit "This unit has not joined the cluster yet"))
                     (with_issued (issued w ++ [lxc_cluster_list]) w)))
  | TimedOut =>
      check_clustered env w
      = (Ok tt, with_status
                  (BlockedStatus (Lit "This unit timed out checking its clustered status"))
                  (with_issued (issued w ++ [lxc_cluster_list]) w))
  | _ => True
  end.
Proof.
  unfold check_clustered. mrun.
  pose proof (checked_result_fate env lxc_cluster_list false 600) as H.
  destruct (fate_of env lxc_cluster_list 600); try done;
    [destruct H as (? & ? & H)|]; rewrite H; by mrun.
Qed.

(** X12. The start handler on a unit that sees a clustered peer, once the
    pending configuration is applied: when the probe fails the unit waits
    and the event is deferred; when the probe times out the unit is Blocked
    and the handler does not defer.  In both cases the handler returns
    normally, the relation is untouched and the bootstrap command is not
    run. *)
Theorem failed_probe_in_start env w r :
  peers w = Some r →
  one_peer_clustered env r = true →
  (apply_pending_config env (fresh w)).1 = Ok tt →
  (fate_of env lxc_cluster_list 600 = Failed →
   (evaluate env StartEvent w).1 = Ok tt
   ∧ unit_status (evaluate env StartEvent w).2
     = WaitingStatus (Lit "This unit has not joined the cluster yet")
   ∧ deferred (evaluate env StartEvent w).2 = true
   ∧ peers (evaluate env StartEvent w).2 = peers w
   ∧ microcloud_init_argv ∉ issued (evaluate env StartEvent w).2)
  ∧ (fate_of env lxc_cluster_list 600 = TimedOut →
     (evaluate env StartEvent w).1 = Ok tt
     ∧ unit_status (evaluate env StartEvent w).2
       = BlockedStatus (Lit "This unit timed out checking its clustered status")
     ∧ deferred (evaluate env StartEvent w).2
       = deferred (apply_pending_config env (fresh w)).2
     ∧ peers (evaluate env StartEvent w).2 = peers w
     ∧ microcloud_init_argv ∉ issued (evaluate env StartEvent w).2).
Proof.
  intros Hp Hone Hcfg.
  destruct (start_run env w) as (res1 & w1 & Hrun & Hp1 & Hl & ->).
  rewrite Hrun in Hcfg |- *. simpl in Hcfg. subst res1. rewrite Hp in Hp1.
  rewrite (bootstrap_run env w1 r Hp1), Hone.
  pose proof (check_clustered_failure env w1) as Hc.
  split; intros Hf; rewrite Hf in Hc; rewrite Hc; simpl;
    (repeat split; [by rewrite Hp1, Hp|]);
    rewrite (init_issued_iff _ Hl), list_elem_of_singleton; done.
Qed.

(** ** The bootstrap *)

Lemma init_fate_done env :
  init_fate env = Done → fate_of env microcloud_init_argv 600 = Done.
Proof. unfold init_fate. by destruct (fate_of env microcloud_init_argv 600). Qed.

Lemma rgw_not_config : microceph_enable_rgw_argv ∉ config_commands.
Proof. unfold config_commands. rewrite !elem_of_cons, elem_of_nil. intuition discriminate. Qed.

(** X13. The leader bootstraps: when the four conditions hold, the pending
    configuration is applied and both initialization commands succeed, the
    start handler returns normally, the status is Active, the unit's own
    flag is "True" (the bags of the peers are untouched), the handler does
    not defer, and the two commands issued after the configuration step are
    the initialization and the enabling of the gateway, in that order; the
    probe is not run. *)
Theorem leader_bootstraps_at_quorum env w r :
  peers w = Some r →
  quorum_ready env r →
  (apply_pending_config env (fresh w)).1 = Ok tt →
  init_fate env = Done →
  (evaluate env StartEvent w).1 = Ok tt
  ∧ unit_status (evaluate env StartEvent w).2 = ActiveStatus
  ∧ peers (evaluate env StartEvent w).2 = Some (mark_clustered r)
  ∧ own_flag (evaluate env StartEvent w).2 = Some (PStr "True")
  ∧ deferred (evaluate env StartEvent w).2 = deferred (apply_pending_config env (fresh w)).2
  ∧ issued (evaluate env StartEvent w).2
    = issued (apply_pending_config env (fresh w)).2
      ++ [microcloud_init_argv; microceph_enable_rgw_argv]
  ∧ lxc_cluster_list ∉ issued (evaluate env StartEvent w).2.
Proof.
  intros Hp Hq Hcfg Hfate.
  destruct (start_run env w) as (res1 & w1 & Hrun & Hp1 & Hl & ->).
  rewrite Hrun in Hcfg |- *. simpl in Hcfg. subst res1. rewrite Hp in Hp1.
  apply should_initialize_quorum in Hq.
  rewrite (bootstrap_run env w1 r Hp1), (quorum_no_peer_clustered env r Hq), Hq.
  destruct (initialize_run env w1 r Hp1) as (Hd & Hi & Hres).
  rewrite Hfate in Hres. rewrite (init_fate_done env Hfate) in Hi.
  destruct Hres as (Hok & Hst & Hpeers). simpl.
  repeat split; try done.
  - by apply (own_flag_marked r).
  - rewrite Hi. intros Hin. rewrite (probe_issued_iff _ Hl) in Hin.
    rewrite !elem_of_cons, elem_of_nil in Hin. intuition discriminate.
Qed.

(** X14. Whatever the unit and its environment, one run of the start
    handler never issues both the probe and the bootstrap command; and the
    gateway is enabled only after a bootstrap command that succeeded. *)
Theorem start_probes_or_initializes env w :
  ¬ (lxc_cluster_list ∈ issued (evaluate env StartEvent w).2
     ∧ microcloud_init_argv ∈ issued (evaluate env StartEvent w).2)
  ∧ (microceph_enable_rgw_argv ∈ issued (evaluate env StartEvent w).2 →
     microcloud_init_argv ∈ issued (evaluate env StartEvent w).2
     ∧ fate_of env microcloud_init_argv 600 = Done).
Proof.
  destruct (start_run env w) as (res1 & w1 & Hrun & Hp1 & Hl & ->).
  pose proof (not_config_command _ _ Hl init_not_config) as Hni.
  pose proof (not_config_command _ _ Hl probe_not_config) as Hnp.
  pose proof (not_config_command _ _ Hl rgw_not_config) as Hnr.
  destruct res1 as [[]|e]; simpl; [|by split; [intros [? ?]|]].
  destruct (peers w1) as [r|] eqn:Hp.
  2:{ rewrite (bootstrap_no_relation env w1 Hp). simpl. by split; [intros [? ?]|]. }
  rewrite (bootstrap_run env w1 r Hp).
  destruct (one_peer_clustered env r).
  - destruct (check_clustered_run env w1 r Hp) as [-> _]. split.
    + intros [_ Hin]. rewrite (init_issued_iff _ Hl) in Hin.
      by apply list_elem_of_singleton in Hin.
    + rewrite elem_of_app, list_elem_of_singleton. by intros [?|?].
  - destruct (should_initialize env r).
    + destruct (initialize_run env w1 r Hp) as (_ & -> & _). split.
      * intros [Hin _].
        destruct (fate_of env microcloud_init_argv 600);
          rewrite (probe_issued_iff _ Hl) in Hin;
          rewrite ?elem_of_cons, elem_of_nil in Hin; intuition discriminate.
      * destruct (fate_of env microcloud_init_argv 600);
          rewrite !elem_of_app, ?elem_of_cons, elem_of_nil;
          intuition (done || discriminate).
    + destruct (wait_for_units_run env w1) as (_ & _ & _ & -> & _).
      by split; [intros [? ?]|].
Qed.

(** X15. Without the peer relation the start handler cannot finish: it
    never returns normally, it raises [AttributeError] once the pending
    configuration is applied, and it runs neither the probe nor the
    bootstrap command. *)
Theorem start_needs_the_relation env w :
  peers w = None →
  (evaluate env StartEvent w).1 ≠ Ok tt
  ∧ ((apply_pending_config env (fresh w)).1 = Ok tt →
     (evaluate env StartEvent w).1 = Raise AttributeError)
  ∧ (lxc_cluster_list ∉ issued (evaluate env StartEvent w).2)
  ∧ (microcloud_init_argv ∉ issued (evaluate env StartEvent w).2).
Proof.
  intros Hp.
  destruct (start_run env w) as (res1 & w1 & Hrun & Hp1 & Hl & ->).
  pose proof (not_config_command _ _ Hl init_not_config) as Hni.
  pose proof (not_config_command _ _ Hl probe_not_config) as Hnp.
  rewrite Hp in Hp1. rewrite Hrun. simpl.
  destruct res1 as [[]|e]; simpl; [|done].
  by rewrite (bootstrap_no_relation env w1 Hp1).
Qed.

(** ** Stopping a unit *)

(** X16. A unit whose own flag does not read "True" (no relation, no
    flag, "False", a non-string) is stopped without any action: no command,
    no status, no deferral, no exception. *)
Theorem unclustered_stop_does_nothing env w :
  own_flag w ≠ Some (PStr "True") →
  evaluate env StopEvent w = (Ok tt, fresh w).
Proof.
  intros Hflag. unfold evaluate, dispatch, _on_charm_stop.
  rewrite (bind_ok _ _ _ _ _ (own_read_flag env (fresh w))).
  change (own_flag (fresh w)) with (own_flag w).
  rewrite bool_decide_false; [done|].
  destruct (own_flag w) as [[]|]; congruence.
Qed.

Lemma instances_loop_issued insts node w :
  issued (instances_loop insts node w).2 = issued w.
Proof.
  induction insts as [|inst insts IH]; [done|]. simpl. unfold bind, lift.
  destruct (py_getitem inst "location") as [loc|e]; [|done].
  destruct (json_eq_str loc node); [done|]. apply IH.
Qed.

Lemma inspect_instances_issued env node w :
  issued (inspect_instances env node w).2 = issued w ++ [lxc_list_argv].
Proof.
  rewrite inspect_instances_eq. cbv zeta.
  destruct (proc env lxc_list_argv); [|done].
  destruct (json_loads env stdout); [|done].
  destruct (py_iter j); [|done].
  by rewrite instances_loop_issued.
Qed.

(** X17. No removal without clearance: unless the safety check has
    returned that no instance lives on the node, [microcloud_remove] runs
    no command but the listing, whatever made the check end (a refusal, an
    unreadable listing, a missing binary). *)
Theorem no_removal_without_clearance env node w :
  (removal_safety_check env node w).1 ≠ Ok false →
  issued (microcloud_remove env node w).2 = issued w ++ [lxc_list_argv]
  ∧ (microcloud_remove env node w).2 = (removal_safety_check env node w).2
  ∧ ((microcloud_remove env node w).1 = Ok tt
     ↔ (removal_safety_check env node w).1 = Ok true).
Proof.
  intros Hcheck. unfold microcloud_remove, bind.
  rewrite safety_check_handlers_dead in *.
  pose proof (inspect_instances_issued env node w) as Hi.
  destruct (inspect_instances env node w) as [[[]|e] w1]; simpl in *; done.
Qed.

Lemma instances_loop_clear insts node w :
  (instances_loop insts node w).1 = Ok false ↔ Forall (clear_of node) insts.
Proof.
  induction insts as [|inst insts IH]; simpl.
  { split; [constructor|done]. }
  rewrite Forall_cons, <- IH. unfold clear_of, bind, lift.
  destruct (py_getitem inst "location") as [loc|e]; simpl.
  - destruct (json_eq_str loc node) eqn:Heq.
    + apply json_eq_str_true in Heq as ->. simpl.
      split; [done|]. by intros [(loc & [= <-] & Hne) _].
    + split.
      * intros Hrest. split; [|done]. exists loc. split; [done|].
        intros ->. assert (json_eq_str (JStr node) node = true) as Ht
          by by apply json_eq_str_true. congruence.
      * by intros [_ ?].
  - split; [done|]. by intros [(loc & ? & _) _].
Qed.

(** X18. The verdict of the safety check on a listing that parses to an
    array: the check clears the node exactly when every instance has a
    location and none of them is the node. *)
Theorem clearance_means_no_local_instance env node w rc out err d insts :
  proc env lxc_list_argv = Exited rc out err d →
  json_loads env out = Some (JArr insts) →
  (removal_safety_check env node w).1 = Ok false ↔ Forall (clear_of node) insts.
Proof.
  intros Hproc Hjson. rewrite safety_check_handlers_dead.
  rewrite (inspect_instances_inventory env node w rc out err d insts Hproc Hjson).
  apply instances_loop_clear.
Qed.

Lemma instances_loop_raises pre inst post node w e :
  Forall (clear_of node) pre →
  py_getitem inst "location" = Raise e →
  instances_loop (pre ++ inst :: post) node w = (Raise e, w).
Proof.
  intros Hpre Hinst. induction Hpre as [|i pre (loc & Hloc & Hne) _ IH]; simpl.
  - unfold bind, lift. by rewrite Hinst.
  - unfold bind, lift. rewrite Hloc.
    destruct (json_eq_str loc node) eqn:Heq; [|exact IH].
    by apply json_eq_str_true in Heq.
Qed.

(** X19. An instance without a location aborts the removal: when the
    first instance of the listing that is not cleared has no ["location"]
    entry (or is not an object), [microcloud_remove] raises the lookup error,
    which is not a [RuntimeError]; no status is set and no removal command is
    run. *)
Theorem unlocated_instance_aborts_removal env node w rc out err d pre inst post e :
  proc env lxc_list_argv = Exited rc out err d →
  json_loads env out = Some (JArr (pre ++ inst :: post)) →
  Forall (clear_of node) pre →
  py_getitem inst "location" = Raise e →
  microcloud_remove env node w = (Raise e, with_issued (issued w ++ [lxc_list_argv]) w)
  ∧ (e = KeyError "location" ∨ e = TypeError).
Proof.
  intros Hproc Hjson Hpre Hinst. split.
  - unfold microcloud_remove. unfold bind at 1.
    rewrite safety_check_handlers_dead.
    rewrite (inspect_instances_inventory env node w rc out err d _ Hproc Hjson).
    by rewrite (instances_loop_raises pre inst post node _ e Hpre Hinst).
  - unfold py_getitem in Hinst. destruct inst; try (injection Hinst as <-; by right).
    destruct (assoc_lookup "location" kvs); [done|]. injection Hinst as <-. by left.
Qed.

(** ** Adding a member *)

(** X20. What the relation-joined handler leaves behind when it adds a
    member (leader, own flag "True", another unit joining): the add command
    is the only command, the handler never defers and never touches the
    relation.  After a successful add the status stays at the Maintenance
    message of the add; a failed or timed-out add is swallowed, the status
    being Blocked on the command; only a command that cannot be started
    makes the handler raise. *)
Theorem add_member_outcome env unit w :
  is_leader env = true →
  own_flag w = Some (PStr "True") →
  unit ≠ Some (unit_name env) →
  issued (evaluate env (RelationJoinedEvent unit) w).2 = [microcloud_add_argv]
  ∧ deferred (evaluate env (RelationJoinedEvent unit) w).2 = false
  ∧ peers (evaluate env (RelationJoinedEvent unit) w).2 = peers w
  ∧ match fate_of env microcloud_add_argv 600 with
    | Done =>
        (evaluate env (RelationJoinedEvent unit) w).1 = Ok tt
        ∧ unit_status (evaluate env (RelationJoinedEvent unit) w).2
          = MaintenanceStatus (Lit "Adding node to MicroCloud")
    | Failed =>
        (evaluate env (RelationJoinedEvent unit) w).1 = Ok tt
        ∧ ∃ rc err, unit_status (evaluate env (RelationJoinedEvent unit) w).2
                    = BlockedStatus (FailedToRun microcloud_add_argv err rc)
    | TimedOut =>
        (evaluate env (RelationJoinedEvent unit) w).1 = Ok tt
        ∧ unit_status (evaluate env (RelationJoinedEvent unit) w).2
          = BlockedStatus (TimeoutExceeded microcloud_add_argv)
    | NotStarted =>
        (evaluate env (RelationJoinedEvent unit) w).1
        = Raise (FileNotFoundError microcloud_add_argv)
        ∧ unit_status (evaluate env (RelationJoinedEvent unit) w).2
          = MaintenanceStatus (Lit "Adding node to MicroCloud")
    end.
Proof.
  intros Hl Hflag Hunit. unfold evaluate, dispatch, _on_cluster_relation_joined.
  rewrite Hl. simpl.
  rewrite (bind_ok _ _ _ _ _ (own_read_flag env (fresh w))).
  change (own_flag (fresh w)) with (own_flag w). rewrite Hflag.
  rewrite bool_decide_true by done. rewrite bool_decide_true by done. simpl.
  unfold microcloud_add. mrun.
  fate_cases env microcloud_add_argv true 600; mrun; eauto 10.
Qed.

(** ** Reloading the daemon *)

Lemma microcloud_reload_run env w :
  microcloud_reload env w =
    (reload_result env,
     with_effects (effects w ++ restart_effects env)
       (with_issued (issued w ++ [waitready_argv])
          (with_status (MaintenanceStatus (Lit "Reloading MicroCloud")) w))).
Proof.
  unfold microcloud_reload, reload_result, restart_effects, restart, unit_maintenance,
    record_effect.
  unfold bind at 1, modify at 1. unfold try_except, bind.
  rewrite subprocess_run_unchecked. fold waitready_argv.
  destruct (proc env waitready_argv); simpl.
  - destruct (snap_present env "microcloud"); simpl.
    + destruct (snap_restart env "microcloud"); reflexivity.
    + unfold with_effects; simpl. by rewrite app_nil_r.
  - unfold with_effects. simpl. by rewrite app_nil_r.
Qed.

(** X21. [microcloud_reload] does not look at how [microcloud waitready]
    ends: whatever its return code and however long it takes, the daemon is
    restarted exactly when the snap is present, and the method returns
    normally unless that restart raises [SnapError], which nothing here
    catches.  Its [except] clause is never entered, so the method never
    raises [RuntimeError]; a command that cannot be started makes it raise
    before any restart.  The status stays at the Maintenance message. *)
Theorem reload_ignores_waitready_failure env w :
  issued (microcloud_reload env w).2 = issued w ++ [waitready_argv]
  ∧ unit_status (microcloud_reload env w).2 = MaintenanceStatus (Lit "Reloading MicroCloud")
  ∧ (microcloud_reload env w).1 ≠ Raise RuntimeError
  ∧ match proc env waitready_argv with
    | Exited rc out err d =>
        if snap_present env "microcloud"
        then effects (microcloud_reload env w).2 = effects w ++ [SnapRestart "microcloud"]
             ∧ (microcloud_reload env w).1
               = match snap_restart env "microcloud" with
                 | Some msg => Raise (SnapError msg)
                 | None => Ok tt
                 end
        else effects (microcloud_reload env w).2 = effects w
             ∧ (microcloud_reload env w).1 = Ok tt
    | SpawnFailed =>
        (microcloud_reload env w).1 = Raise (FileNotFoundError waitready_argv)
        ∧ effects (microcloud_reload env w).2 = effects w
    end.
Proof.
  rewrite microcloud_reload_run. unfold reload_result, restart_effects. simpl.
  destruct (proc env waitready_argv); simpl; [|by rewrite app_nil_r].
  destruct (snap_present env "microcloud"); simpl; rewrite ?app_nil_r;
    [|done]. by destruct (snap_restart env "microcloud").
Qed.

(** ** Side-loading *)

Lemma os_path_getsize_run env path w :
  os_path_getsize env path w =
    (match getsize env path with
     | Some size => Ok size
     | None => Raise (FileNotFoundError [path])
     end, w).
Proof. unfold os_path_getsize. by destruct (getsize env path). Qed.

(** X22. Side-loading the binary starts by measuring the stored file: when
    the file does not exist the method raises [FileNotFoundError] and nothing
    has been done.  Otherwise a debug binary already in place is removed
    first; an empty resource file stops there (the side-loaded binary is
    unloaded), any other file is copied to the debug path and made
    executable (mode 0o755); then the daemon is reloaded, and the result is
    the reload's.  No status but the Maintenance one of the reload is set,
    and nothing is deferred. *)
Theorem binary_sideload_effects env w :
  match getsize env (microcloud_binary_path w) with
  | None =>
      snap_sideload_microcloud_binary env w
      = (Raise (FileNotFoundError [microcloud_binary_path w]), w)
  | Some size =>
      effects (snap_sideload_microcloud_binary env w).2
      = effects w
        ++ (if path_exists env microcloud_debug then [OsRemove microcloud_debug] else [])
        ++ (if size =? 0 then []
            else [CopyFile (microcloud_binary_path w) microcloud_debug;
                  Chmod microcloud_debug 493])
        ++ restart_effects env
      ∧ issued (snap_sideload_microcloud_binary env w).2 = issued w ++ [waitready_argv]
      ∧ unit_status (snap_sideload_microcloud_binary env w).2
        = MaintenanceStatus (Lit "Reloading MicroCloud")
      ∧ deferred (snap_sideload_microcloud_binary env w).2 = deferred w
      ∧ (snap_sideload_microcloud_binary env w).1 = reload_result env
  end.
Proof.
  unfold snap_sideload_microcloud_binary, record_effect, when, bind, get, modify, ret.
  cbv beta. rewrite os_path_getsize_run.
  destruct (getsize env (microcloud_binary_path w)) as [size|]; [|done].
  destruct (size =? 0); destruct (path_exists env microcloud_debug); simpl;
    rewrite microcloud_reload_run; simpl;
    rewrite <- ?app_assoc; simpl; rewrite ?app_nil_r; done.
Qed.

(** X23. An empty snap resource reverts to the store: the MicroCloud snap
    is ensured on the stored channel (without cohort), and nothing else is
    done; a snap error becomes [RuntimeError] with the status Blocked on
    the refresh message.  No command is run. *)
Theorem empty_snap_reverts_to_store env w channel :
  getsize env (microcloud_snap_path w) = Some 0 →
  stored_config w !! "snap-channel-microcloud" = Some channel →
  effects (snap_sideload_microcloud env w).2
  = effects w ++ [SnapEnsure "microcloud" channel None]
  ∧ issued (snap_sideload_microcloud env w).2 = issued w
  ∧ match snap_ensure env "microcloud" channel with
    | None =>
        (snap_sideload_microcloud env w).1 = Ok tt
        ∧ unit_status (snap_sideload_microcloud env w).2 = unit_status w
    | Some msg =>
        (snap_sideload_microcloud env w).1 = Raise RuntimeError
        ∧ unit_status (snap_sideload_microcloud env w).2
          = BlockedStatus (FailedToRefresh msg)
    end.
Proof.
  intros Hsize Hch. unfold snap_sideload_microcloud, stored_config_getitem, ensure,
    record_effect.
  mrun. rewrite os_path_getsize_run, Hsize. mrun. rewrite Hch. mrun.
  destruct (snap_ensure env "microcloud" channel); by mrun.
Qed.

(** X24. A non-empty snap resource is installed from the file, then the
    daemon socket is enabled: when the local installation fails the method
    raises [RuntimeError] with the status Blocked on the side-load message
    and the socket command is not run; otherwise the socket command is the
    one command run, and its failure or timeout is turned into
    [RuntimeError] with the status Blocked on the command. *)
Theorem local_snap_is_installed env w size :
  getsize env (microcloud_snap_path w) = Some size →
  size ≠ 0 →
  effects (snap_sideload_microcloud env w).2
  = effects w ++ [SnapInstallLocal (microcloud_snap_path w)]
  ∧ match snap_install_local env (microcloud_snap_path w) with
    | Some msg =>
        (snap_sideload_microcloud env w).1 = Raise RuntimeError
        ∧ unit_status (snap_sideload_microcloud env w).2
          = BlockedStatus (FailedToSideload msg)
        ∧ issued (snap_sideload_microcloud env w).2 = issued w
    | None =>
        issued (snap_sideload_microcloud env w).2 = issued w ++ [socket_argv]
        ∧ match fate_of env socket_argv 600 with
          | Done =>
              (snap_sideload_microcloud env w).1 = Ok tt
              ∧ unit_status (snap_sideload_microcloud env w).2 = unit_status w
          | Failed =>
              (snap_sideload_microcloud env w).1 = Raise RuntimeError
              ∧ ∃ rc err, unit_status (snap_sideload_microcloud env w).2
                          = BlockedStatus (FailedToRun socket_argv err rc)
          | TimedOut =>
              (snap_sideload_microcloud env w).1 = Raise RuntimeError
              ∧ unit_status (snap_sideload_microcloud env w).2
                = BlockedStatus (TimeoutExceeded socket_argv)
          | NotStarted =>
              (snap_sideload_microcloud env w).1 = Raise (FileNotFoundError socket_argv)
          end
    end.
Proof.
  intros Hsize Hne. apply Z.eqb_neq in Hne.
  unfold snap_sideload_microcloud, record_effect. fold socket_argv.
  mrun. rewrite os_path_getsize_run, Hsize. mrun. rewrite Hne. mrun.
  destruct (snap_install_local env (microcloud_snap_path w)); mrun; [done|].
  fate_cases env socket_argv true 600; mrun; eauto 10.
Qed.

(** ** Resources *)

Lemma eqb_empty s : String.eqb s "" = bool_decide (s = "").
Proof.
  destruct (String.eqb_spec s ""); [by rewrite bool_decide_true|by rewrite bool_decide_false].
Qed.

(** X25. With neither resource attached (or attached as nothing),
    [resource_sideload] side-loads nothing: it only resets the two stored
    paths to the empty string. *)
Theorem no_resource_clears_paths env w :
  default "" (resource_fetch env "microcloud-snap") = "" →
  default "" (resource_fetch env "microcloud-binary") = "" →
  resource_sideload env w = (Ok tt, with_binary_path "" (with_snap_path "" w)).
Proof.
  intros Hs Hb. unfold resource_sideload, sideload_resource. rewrite Hs, Hb.
  reflexivity.
Qed.

Lemma no_member_found env res suffix :
  Forall (fun f => f ∉ tar_getnames env res) (valid_names env suffix) →
  List.filter (fun f => bool_decide (f ∈ tar_getnames env res)) (valid_names env suffix) = [].
Proof.
  induction 1 as [|f l Hf _ IH]; [done|]. simpl. by rewrite bool_decide_false.
Qed.

(** X26. A snap tarball without a member for the architecture does not
    change the stored path, but the temporary directory is still made: so
    with no path stored nothing is side-loaded, while a path stored earlier
    is side-loaded again and, once that has succeeded, that file and the
    temporary directory are removed. *)
Theorem memberless_tarball_reuses_stored_path env w res :
  resource_fetch env "microcloud-snap" = Some res →
  res ≠ "" →
  is_tarfile env res = true →
  Forall (fun f => f ∉ tar_getnames env res) (valid_names env ".snap") →
  default "" (resource_fetch env "microcloud-binary") = "" →
  (microcloud_snap_path w = "" →
   resource_sideload env w = (Ok tt, with_binary_path "" w))
  ∧ (microcloud_snap_path w ≠ "" →
     mkdtemp env ≠ "" →
     (snap_sideload_microcloud env w).1 = Ok tt →
     resource_sideload env w
     = (Ok tt,
        with_binary_path ""
          (with_effects
             (effects (snap_sideload_microcloud env w).2
              ++ [OsRemove (microcloud_snap_path w); OsRmdir (mkdtemp env)])
             (snap_sideload_microcloud env w).2))).
Proof.
  intros Hres Hne Htar Hnone Hbin.
  pose proof (no_member_found env res ".snap" Hnone) as Hfound.
  unfold valid_names in Hfound.
  unfold resource_sideload, sideload_resource. rewrite Hres, Hbin. simpl default.
  rewrite Htar, !eqb_empty, (bool_decide_false (res = "")) by done. simpl negb. simpl andb.
  cbv zeta. rewrite Hfound. simpl lookup.
  split.
  - intros Hpath. unfold bind, get, ret, when, modify. simpl.
    rewrite eqb_empty, bool_decide_true by done. reflexivity.
  - intros Hpath Htmp Hok. unfold bind, get, ret, when, modify, record_effect. simpl.
    rewrite eqb_empty, (bool_decide_false (microcloud_snap_path w = "")) by done. simpl.
    destruct (snap_sideload_microcloud env w) as [res1 w1]. simpl in Hok. subst res1.
    rewrite eqb_empty, (bool_decide_false (mkdtemp env = "")) by done.
    unfold modify, ret, with_binary_path, with_effects. simpl.
    by rewrite <- app_assoc.
Qed.

(** ** Subsystems that are disabled *)

#[local] Instance same_issued_preorder : PreOrder same_issued.
Proof. split; [done|]. intros a b c H1 H2. unfold same_issued in *. congruence. Qed.

#[local] Instance ensures_only_preorder P : PreOrder (ensures_only P).
Proof.
  split.
  - intros w. exists []. split; [by rewrite app_nil_r|constructor].
  - intros a b c (l1 & H1 & P1) (l2 & H2 & P2). exists (l1 ++ l2). split.
    + by rewrite H2, H1, app_assoc.
    + by apply Forall_app.
Qed.

Lemma bind_ret {A B} (a : A) (k : A → M B) : bind (ret a) k = k a.
Proof. reflexivity. Qed.

Lemma when_false m : when false m = ret tt.
Proof. reflexivity. Qed.

Ltac ensures_leaf :=
  first
    [ by (exists []; split; [by rewrite app_nil_r|constructor])
    | by (eexists [_]; split; [reflexivity|repeat constructor]) ].

Ltac same_issued_leaf := reflexivity.

Lemma record_channels_quiet env (R : relation World) `{!PreOrder R} :
  (∀ w c, R w (with_stored_config c w)) → frames R (record_channels env).
Proof.
  intros HR. unfold record_channels, config_getitem, stored_config_setitem.
  frames_go ltac:(apply HR).
Qed.

Lemma snap_install_frames env (R : relation World) `{!PreOrder R} :
  (∀ w c, R w (with_stored_config c w)) →
  (∀ w st, R w (with_status st w)) →
  frames R (install_snaps env) →
  frames R (snap_install_microcloud env).
Proof.
  intros HR Hst Hi. rewrite snap_install_split.
  apply frames_bind; [apply _| |intros _; by apply record_channels_quiet].
  apply frames_try_except; [apply _|done|].
  intros e k Hk. destruct e; simpl in Hk; try discriminate. injection Hk as <-.
  unfold unit_blocked. frames_go ltac:(apply Hst).
Qed.

Ltac disable_in_install Hc Ht :=
  unfold install_snaps, ensure_if_absent, ensure, record_effect, config_getitem;
  rewrite Hc; cbv beta iota; rewrite bind_ret; cbv beta; rewrite Ht, when_false.

(** X27. With the [microceph] option set to a false value, the
    installation runs no command at all (the Ceph configuration directory is
    not touched) and no snap operation is performed on the MicroCeph snap. *)
Theorem disabled_microceph_is_left_alone env w v :
  config env !! "microceph" = Some v →
  truthy v = false →
  issued (snap_install_microcloud env w).2 = issued w
  ∧ ensures_only (fun name => name ≠ "microceph") w (snap_install_microcloud env w).2.
Proof.
  intros Hc Ht. split.
  - apply (snap_install_frames env same_issued); [done|done|].
    disable_in_install Hc Ht. frames_go same_issued_leaf.
  - apply (snap_install_frames env (ensures_only _));
      [intros; ensures_leaf|intros; ensures_leaf|].
    disable_in_install Hc Ht. frames_go ensures_leaf.
Qed.

(** X28. With the [microovn] option set to a false value, the
    installation performs no snap operation on the MicroOVN snap. *)
Theorem disabled_microovn_is_left_alone env w v :
  config env !! "microovn" = Some v →
  truthy v = false →
  ensures_only (fun name => name ≠ "microovn") w (snap_install_microcloud env w).2.
Proof.
  intros Hc Ht.
  apply (snap_install_frames env (ensures_only _));
    [intros; ensures_leaf|intros; ensures_leaf|].
  disable_in_install Hc Ht. frames_go ensures_leaf.
Qed.

(** ** The further properties on the example deployments *)

Lemma own_bag_write_read_in_example :
  let env := example_env true 3 all_succeed in
  (set_peer_data_str env (Some (unit_name env)) "clustered" "True" two_of_three).1 = Ok tt
  ∧ (get_peer_data_str env (Some (unit_name env)) "clustered"
       (set_peer_data_str env (Some (unit_name env)) "clustered" "True" two_of_three).2).1
    = Ok "True".
Proof.
  apply (own_bag_write_read (example_env true 3 all_succeed) two_of_three
           (mkRelation (flag_bag "False") {[ "microcloud/1" := flag_bag "False" ]})
           "clustered" "True").
  - reflexivity.
  - discriminate.
Defined.

Lemma own_bag_write_frame_in_example :
  let env := example_env true 3 all_succeed in
  let r := mkRelation (flag_bag "False") {[ "microcloud/1" := flag_bag "False" ]} in
  let w' := (set_peer_data_str env (Some (unit_name env)) "clustered" "True" two_of_three).2 in
  ∃ r', peers w' = Some r'
    ∧ peer_data r' = peer_data r
    ∧ (∀ k, k ≠ "clustered" → own_data r' !! k = own_data r !! k)
    ∧ w' = with_peers (Some r') two_of_three
    ∧ set_peer_data_str env (Some (unit_name env)) "clustered" "True" w' = (Ok tt, w').
Proof.
  apply (own_bag_write_frame (example_env true 3 all_succeed) two_of_three
           (mkRelation (flag_bag "False") {[ "microcloud/1" := flag_bag "False" ]})
           "clustered" "True").
  - reflexivity.
  - discriminate.
Defined.

Lemma toggling_microceph_is_ignored :
  _on_charm_config_changed good_install settled_unit = (Ok tt, settled_unit).
Proof.
  apply (non_channel_changes_are_ignored good_install settled_unit).
  repeat constructor; vm_compute; reflexivity.
Defined.

Lemma install_records_channels_in_example :
  (∀ k, k ∈ channel_options →
     is_Some (config good_install !! k)
     ∧ stored_config (snap_install_microcloud good_install new_unit).2 !! k
       = config good_install !! k)
  ∧ (∀ k, k ∉ channel_options →
     stored_config (snap_install_microcloud good_install new_unit).2 !! k
     = stored_config new_unit !! k)
  ∧ unit_status (snap_install_microcloud good_install new_unit).2 = unit_status new_unit
  ∧ peers (snap_install_microcloud good_install new_unit).2 = peers new_unit
  ∧ deferred (snap_install_microcloud good_install new_unit).2 = deferred new_unit.
Proof.
  apply (snap_install_records_channels good_install new_unit).
  vm_compute. reflexivity.
Defined.

Lemma config_settles_in_example :
  Forall (fun k => delta good_install (snap_install_microcloud good_install new_unit).2 !! k
                   = None) channel_options
  ∧ _on_charm_config_changed good_install (snap_install_microcloud good_install new_unit).2
    = (Ok tt, (snap_install_microcloud good_install new_unit).2).
Proof.
  apply (config_settles_after_install good_install new_unit).
  vm_compute. reflexivity.
Defined.

Lemma failed_config_change_in_example :
  (_on_charm_config_changed bad_install new_unit).1 = Ok tt
  ∧ unit_status (_on_charm_config_changed bad_install new_unit).2
    = BlockedStatus (FailedToApply (map_to_list (delta bad_install new_unit)).*1)
  ∧ deferred (_on_charm_config_changed bad_install new_unit).2 = true
  ∧ stored_config (_on_charm_config_changed bad_install new_unit).2 = stored_config new_unit
  ∧ peers (_on_charm_config_changed bad_install new_unit).2 = peers new_unit.
Proof.
  apply (failed_config_change_is_deferred bad_install new_unit).
  - apply Exists_cons_hd. exists (PStr "5.21/stable"). vm_compute. reflexivity.
  - vm_compute. reflexivity.
Defined.

Lemma channel_change_in_example :
  _on_charm_config_changed good_install new_unit = snap_install_microcloud good_install new_unit
  ∧ deferred (_on_charm_config_changed good_install new_unit).2 = deferred new_unit
  ∧ unit_status (_on_charm_config_changed good_install new_unit).2 = unit_status new_unit
  ∧ _on_charm_config_changed good_install (_on_charm_config_changed good_install new_unit).2
    = (Ok tt, (_on_charm_config_changed good_install new_unit).2).
Proof.
  apply (channel_change_is_applied_once good_install new_unit).
  - apply Exists_cons_hd. exists (PStr "5.21/stable"). vm_compute. reflexivity.
  - vm_compute. reflexivity.
Defined.

Lemma failed_install_in_example :
  _on_charm_install bad_install new_unit
  = (Ok tt, with_deferred true (snap_install_microcloud bad_install new_unit).2)
  ∧ unit_status (_on_charm_install bad_install new_unit).2 = BlockedStatus snap_failure
  ∧ stored_config (_on_charm_install bad_install new_unit).2 = stored_config new_unit.
Proof.
  apply (failed_install_is_deferred bad_install new_unit).
  vm_compute. reflexivity.
Defined.

Lemma failed_probe_in_update_status_example :
  let env := example_env false 2 probe_fails in
  (evaluate env UpdateStatusEvent clustered_world).1 = Ok tt
  ∧ unit_status (evaluate env UpdateStatusEvent clustered_world).2
    = BlockedStatus
        (Lit match fate_of env lxc_cluster_list 600 with
             | Failed => "This unit has failed to join the cluster"
             | _ => "This unit timed out checking its clustered status"
             end)
  ∧ peers (evaluate env UpdateStatusEvent clustered_world).2 = peers clustered_world
  ∧ own_flag (evaluate env UpdateStatusEvent clustered_world).2 = own_flag clustered_world
  ∧ deferred (evaluate env UpdateStatusEvent clustered_world).2 = false
  ∧ issued (evaluate env UpdateStatusEvent clustered_world).2 = [lxc_cluster_list].
Proof.
  apply (failed_probe_blocks_update_status (example_env false 2 probe_fails)
           clustered_world).
  left. vm_compute. reflexivity.
Defined.

Lemma failed_probe_in_start_example :
  let env := example_env false 3 probe_fails in
  let w := example_world (flag_bag "False") {[ "microcloud/1" := flag_bag "True" ]} in
  (fate_of env lxc_cluster_list 600 = Failed →
   (evaluate env StartEvent w).1 = Ok tt
   ∧ unit_status (evaluate env StartEvent w).2
     = WaitingStatus (Lit "This unit has not joined the cluster yet")
   ∧ deferred (evaluate env StartEvent w).2 = true
   ∧ peers (evaluate env StartEvent w).2 = peers w
   ∧ microcloud_init_argv ∉ issued (evaluate env StartEvent w).2)
  ∧ (fate_of env lxc_cluster_list 600 = TimedOut →
     (evaluate env StartEvent w).1 = Ok tt
     ∧ unit_status (evaluate env StartEvent w).2
       = BlockedStatus (Lit "This unit timed out checking its clustered status")
     ∧ deferred (evaluate env StartEvent w).2
       = deferred (apply_pending_config env (fresh w)).2
     ∧ peers (evaluate env StartEvent w).2 = peers w
     ∧ microcloud_init_argv ∉ issued (evaluate env StartEvent w).2).
Proof.
  apply (failed_probe_in_start (example_env false 3 probe_fails)
           (example_world (flag_bag "False") {[ "microcloud/1" := flag_bag "True" ]})
           peer_clustered).
  - reflexivity.
  - vm_compute. reflexivity.
  - vm_compute. reflexivity.
Defined.

Lemma leader_bootstraps_in_example :
  let env := example_env true 2 all_succeed in
  let w := example_world (flag_bag "False") {[ "microcloud/1" := flag_bag "False" ]} in
  let r := mkRelation (flag_bag "False") {[ "microcloud/1" := flag_bag "False" ]} in
  (evaluate env StartEvent w).1 = Ok tt
  ∧ unit_status (evaluate env StartEvent w).2 = ActiveStatus
  ∧ peers (evaluate env StartEvent w).2 = Some (mark_clustered r)
  ∧ own_flag (evaluate env StartEvent w).2 = Some (PStr "True")
  ∧ deferred (evaluate env StartEvent w).2 = deferred (apply_pending_config env (fresh w)).2
  ∧ issued (evaluate env StartEvent w).2
    = issued (apply_pending_config env (fresh w)).2
      ++ [microcloud_init_argv; microceph_enable_rgw_argv]
  ∧ lxc_cluster_list ∉ issued (evaluate env StartEvent w).2.
Proof.
  apply (leader_bootstraps_at_quorum (example_env true 2 all_succeed)
           (example_world (flag_bag "False") {[ "microcloud/1" := flag_bag "False" ]})
           (mkRelation (flag_bag "False") {[ "microcloud/1" := flag_bag "False" ]})).
  - reflexivity.
  - apply should_initialize_quorum. vm_compute. reflexivity.
  - vm_compute. reflexivity.
  - vm_compute. reflexivity.
Defined.

Lemma start_without_relation_raises :
  let env := example_env true 2 all_succeed in
  (evaluate env StartEvent no_relation).1 ≠ Ok tt
  ∧ ((apply_pending_config env (fresh no_relation)).1 = Ok tt →
     (evaluate env StartEvent no_relation).1 = Raise AttributeError)
  ∧ (lxc_cluster_list ∉ issued (evaluate env StartEvent no_relation).2)
  ∧ (microcloud_init_argv ∉ issued (evaluate env StartEvent no_relation).2).
Proof.
  apply (start_needs_the_relation (example_env true 2 all_succeed) no_relation).
  reflexivity.
Defined.

Lemma unclustered_stop_in_example :
  evaluate (example_env false 3 all_succeed) StopEvent two_of_three = (Ok tt, fresh two_of_three).
Proof.
  apply (unclustered_stop_does_nothing (example_env false 3 all_succeed) two_of_three).
  vm_compute. discriminate.
Defined.

Lemma refused_removal_runs_only_the_listing :
  let env := example_env false 2 listing_occupied in
  issued (microcloud_remove env "node0" clustered_world).2
  = issued clustered_world ++ [lxc_list_argv]
  ∧ (microcloud_remove env "node0" clustered_world).2
    = (removal_safety_check env "node0" clustered_world).2
  ∧ ((microcloud_remove env "node0" clustered_world).1 = Ok tt
     ↔ (removal_safety_check env "node0" clustered_world).1 = Ok true).
Proof.
  apply (no_removal_without_clearance (example_env false 2 listing_occupied) "node0"
           clustered_world).
  vm_compute. discriminate.
Defined.

Lemma clearance_in_example :
  (removal_safety_check (example_env false 2 listing_occupied) "node1" clustered_world).1
  = Ok false
  ↔ Forall (clear_of "node1") [JObj [("name", JStr "c1"); ("location", JStr "node0")]].
Proof.
  apply (clearance_means_no_local_instance (example_env false 2 listing_occupied) "node1"
           clustered_world 0 inventory_text "" 1).
  - reflexivity.
  - vm_compute. reflexivity.
Defined.

Lemma unlocated_instance_in_example :
  microcloud_remove unlocated_env "node0" clustered_world
  = (Raise (KeyError "location"),
     with_issued (issued clustered_world ++ [lxc_list_argv]) clustered_world)
  ∧ (KeyError "location" = KeyError "location" ∨ KeyError "location" = TypeError).
Proof.
  apply (unlocated_instance_aborts_removal unlocated_env "node0" clustered_world
           0 unlocated_text "" 1 [] (JObj []) [] (KeyError "location")).
  - reflexivity.
  - vm_compute. reflexivity.
  - constructor.
  - reflexivity.
Defined.

Lemma failed_add_is_swallowed :
  let env := example_env true 2 add_fails in
  let ev := RelationJoinedEvent (Some "microcloud/1") in
  issued (evaluate env ev clustered_world).2 = [microcloud_add_argv]
  ∧ deferred (evaluate env ev clustered_world).2 = false
  ∧ peers (evaluate env ev clustered_world).2 = peers clustered_world
  ∧ match fate_of env microcloud_add_argv 600 with
    | Done =>
        (evaluate env ev clustered_world).1 = Ok tt
        ∧ unit_status (evaluate env ev clustered_world).2
          = MaintenanceStatus (Lit "Adding node to MicroCloud")
    | Failed =>
        (evaluate env ev clustered_world).1 = Ok tt
        ∧ ∃ rc err, unit_status (evaluate env ev clustered_world).2
                    = BlockedStatus (FailedToRun microcloud_add_argv err rc)
    | TimedOut =>
        (evaluate env ev clustered_world).1 = Ok tt
        ∧ unit_status (evaluate env ev clustered_world).2
          = BlockedStatus (TimeoutExceeded microcloud_add_argv)
    | NotStarted =>
        (evaluate env ev clustered_world).1
        = Raise (FileNotFoundError microcloud_add_argv)
        ∧ unit_status (evaluate env ev clustered_world).2
          = MaintenanceStatus (Lit "Adding node to MicroCloud")
    end.
Proof.
  apply (add_member_outcome (example_env true 2 add_fails) (Some "microcloud/1")
           clustered_world).
  - reflexivity.
  - vm_compute. reflexivity.
  - discriminate.
Defined.

Lemma empty_snap_in_example :
  let env := deploy_env deploy_config nothing_present store_is_down no_resource no_size
               all_succeed in
  effects (snap_sideload_microcloud env settled_unit).2
  = effects settled_unit ++ [SnapEnsure "microcloud" (PStr "latest/stable") None]
  ∧ issued (snap_sideload_microcloud env settled_unit).2 = issued settled_unit
  ∧ match snap_ensure env "microcloud" (PStr "latest/stable") with
    | None =>
        (snap_sideload_microcloud env settled_unit).1 = Ok tt
        ∧ unit_status (snap_sideload_microcloud env settled_unit).2
          = unit_status settled_unit
    | Some msg =>
        (snap_sideload_microcloud env settled_unit).1 = Raise RuntimeError
        ∧ unit_status (snap_sideload_microcloud env settled_unit).2
          = BlockedStatus (FailedToRefresh msg)
    end.
Proof.
  apply (empty_snap_reverts_to_store bad_install settled_unit (PStr "latest/stable")).
  - reflexivity.
  - vm_compute. reflexivity.
Defined.

Lemma local_snap_in_example :
  let env := deploy_env deploy_config nothing_present store_is_up no_resource big_file
               all_succeed in
  effects (snap_sideload_microcloud env settled_unit).2
  = effects settled_unit ++ [SnapInstallLocal (microcloud_snap_path settled_unit)]
  ∧ match snap_install_local env (microcloud_snap_path settled_unit) with
    | Some msg =>
        (snap_sideload_microcloud env settled_unit).1 = Raise RuntimeError
        ∧ unit_status (snap_sideload_microcloud env settled_unit).2
          = BlockedStatus (FailedToSideload msg)
        ∧ issued (snap_sideload_microcloud env settled_unit).2 = issued settled_unit
    | None =>
        issued (snap_sideload_microcloud env settled_unit).2
        = issued settled_unit ++ [socket_argv]
        ∧ match fate_of env socket_argv 600 with
          | Done =>
              (snap_sideload_microcloud env settled_unit).1 = Ok tt
              ∧ unit_status (snap_sideload_microcloud env settled_unit).2
                = unit_status settled_unit
          | Failed =>
              (snap_sideload_microcloud env settled_unit).1 = Raise RuntimeError
              ∧ ∃ rc err, unit_status (snap_sideload_microcloud env settled_unit).2
                          = BlockedStatus (FailedToRun socket_argv err rc)
          | TimedOut =>
              (snap_sideload_microcloud env settled_unit).1 = Raise RuntimeError
              ∧ unit_status (snap_sideload_microcloud env settled_unit).2
                = BlockedStatus (TimeoutExceeded socket_argv)
          | NotStarted =>
              (snap_sideload_microcloud env settled_unit).1
              = Raise (FileNotFoundError socket_argv)
          end
    end.
Proof.
  apply (local_snap_is_installed
           (deploy_env deploy_config nothing_present store_is_up no_resource big_file
              all_succeed) settled_unit 4096).
  - reflexivity.
  - discriminate.
Defined.

Lemma no_resource_in_example :
  resource_sideload good_install settled_unit
  = (Ok tt, with_binary_path "" (with_snap_path "" settled_unit)).
Proof.
  apply (no_resource_clears_paths good_install settled_unit); reflexivity.
Defined.

Lemma memberless_tarball_in_example :
  (microcloud_snap_path settled_unit = "" →
   resource_sideload tarball_env settled_unit = (Ok tt, with_binary_path "" settled_unit))
  ∧ (microcloud_snap_path settled_unit ≠ "" →
     mkdtemp tarball_env ≠ "" →
     (snap_sideload_microcloud tarball_env settled_unit).1 = Ok tt →
     resource_sideload tarball_env settled_unit
     = (Ok tt,
        with_binary_path ""
          (with_effects
             (effects (snap_sideload_microcloud tarball_env settled_unit).2
              ++ [OsRemove (microcloud_snap_path settled_unit); OsRmdir (mkdtemp tarball_env)])
             (snap_sideload_microcloud tarball_env settled_unit).2))).
Proof.
  apply (memberless_tarball_reuses_stored_path tarball_env settled_unit tarball).
  - reflexivity.
  - discriminate.
  - vm_compute. reflexivity.
  - repeat constructor. apply (bool_decide_unpack _). vm_compute. exact I.
  - reflexivity.
Defined.

Lemma lean_install_runs_no_command :
  issued (snap_install_microcloud lean_install new_unit).2 = issued new_unit
  ∧ ensures_only (fun name => name ≠ "microceph") new_unit
      (snap_install_microcloud lean_install new_unit).2.
Proof.
  apply (disabled_microceph_is_left_alone lean_install new_unit (PBool false)).
  - vm_compute. reflexivity.
  - reflexivity.
Defined.

Lemma microovn_is_not_installed_in_example :
  ensures_only (fun name => name ≠ "microovn") new_unit
    (snap_install_microcloud good_install new_unit).2.
Proof.
  apply (disabled_microovn_is_left_alone good_install new_unit (PBool false)).
  - vm_compute. reflexivity.
  - reflexivity.
Defined.
